(** * mikrotik_chatbot: the translation, execution and formatting pipeline

    A shallow embedding of [get_ai_response], [execute_command] and
    [format_response] of [mikrotik_chatbot.py], with the properties of the
    three stages stated and proved over it.

    Python [str] is modelled as [string] (a sequence of bytes, UTF-8 for
    text outside ASCII).  A Python [dict] is an association list in
    insertion order; its keys are unique in every dict the program builds. *)

From Stdlib Require Import String Ascii List ZArith Lia Bool DecimalString.
Import ListNotations.
Open Scope string_scope.
Set Warnings "-register-all".

(** ** Strings *)

Module PyStr.

Definition dq : string := String "034"%char EmptyString.
Definition nl : string := String "010"%char EmptyString.
Definition backtick : string := String "096"%char EmptyString.

(** [sep.join(l)] *)
Fixpoint join (sep : string) (l : list string) : string :=
  match l with
  | [] => ""
  | [x] => x
  | x :: rest => x ++ sep ++ join sep rest
  end.

(** [needle in hay] on two strings *)
Fixpoint contains (needle hay : string) : bool :=
  String.prefix needle hay ||
  match hay with
  | EmptyString => false
  | String _ rest => contains needle rest
  end.

(** [s.split(sep)] for a one-character separator *)
Fixpoint split_on (sep : ascii) (s : string) : list string :=
  match s with
  | EmptyString => [""]
  | String c rest =>
      if Ascii.eqb c sep then "" :: split_on sep rest
      else match split_on sep rest with
           | [] => [String c ""]
           | w :: ws => String c w :: ws
           end
  end.

(** [s.replace(a, b)] for one-character [a] and [b] *)
Fixpoint replace (a b : ascii) (s : string) : string :=
  match s with
  | EmptyString => EmptyString
  | String c rest => String (if Ascii.eqb c a then b else c) (replace a b rest)
  end.

Definition is_lower (c : ascii) : bool :=
  let n := nat_of_ascii c in (97 <=? n)%nat && (n <=? 122)%nat.
Definition is_upper (c : ascii) : bool :=
  let n := nat_of_ascii c in (65 <=? n)%nat && (n <=? 90)%nat.
Definition to_upper (c : ascii) : ascii :=
  if is_lower c then ascii_of_nat (nat_of_ascii c - 32) else c.
Definition to_lower (c : ascii) : ascii :=
  if is_upper c then ascii_of_nat (nat_of_ascii c + 32) else c.

(** [s.title()]: a cased character that follows an uncased one is put in
    upper case, one that follows a cased character in lower case.  The
    cased characters are the ASCII letters: RouterOS field names are ASCII,
    and a byte above 127 is left as it is and counts as uncased. *)
Fixpoint title_from (previous_is_cased : bool) (s : string) : string :=
  match s with
  | EmptyString => EmptyString
  | String c rest =>
      if is_lower c || is_upper c then
        String (if previous_is_cased then to_lower c else to_upper c)
               (title_from true rest)
      else String c (title_from false rest)
  end.

Definition title (s : string) : string := title_from false s.

(** [str(n)] of a non-negative [int] and of any [int] *)
Definition str_of_nat (n : nat) : string :=
  NilEmpty.string_of_uint (Nat.to_uint n).
Definition str_of_Z (z : Z) : string :=
  NilZero.string_of_int (Z.to_int z).

End PyStr.

(** ** Python values *)

(** What [json.loads] can return.  A float keeps its lexeme: the program never
    computes with one. *)
Inductive pyval : Type :=
| PNone
| PBool (b : bool)
| PInt (z : Z)
| PFloat (lexeme : string)
| PStr (s : string)
| PList (l : list pyval)
| PDict (d : list (string * pyval)).

Definition pydict : Type := list (string * pyval).

(** A field value of a router record. *)
Inductive scalar : Type :=
| SStr (s : string)
| SInt (z : Z)
| SBool (b : bool)
| SNone.

(** A ResourceRecord: field name to value, in the router's field order. *)
Definition record : Type := list (string * scalar).

(** [d.get(k)], [None] standing for Python's [None] default *)
Fixpoint dict_get {V : Type} (k : string) (d : list (string * V)) : option V :=
  match d with
  | [] => None
  | (k', v) :: rest => if String.eqb k k' then Some v else dict_get k rest
  end.

(** [d.get(k, default)] *)
Definition dict_get_default {V : Type} (k : string) (default : V)
  (d : list (string * V)) : V :=
  match dict_get k d with
  | Some v => v
  | None => default
  end.

(** [d[k] = v]: an existing key keeps its place, a new one goes last *)
Fixpoint dict_set {V : Type} (k : string) (v : V) (d : list (string * V))
  : list (string * V) :=
  match d with
  | [] => [(k, v)]
  | (k', v') :: rest =>
      if String.eqb k k' then (k, v) :: rest else (k', v') :: dict_set k v rest
  end.

(** [str(v)] of a field value *)
Definition scalar_str (v : scalar) : string :=
  match v with
  | SStr s => s
  | SInt z => PyStr.str_of_Z z
  | SBool true => "True"
  | SBool false => "False"
  | SNone => "None"
  end.

(** [v == s] for a string literal [s] *)
Definition scalar_eq_str (v : option scalar) (s : string) : bool :=
  match v with
  | Some (SStr t) => String.eqb t s
  | _ => false
  end.

Definition pyval_eq_str (v : pyval) (s : string) : bool :=
  match v with
  | PStr t => String.eqb t s
  | _ => false
  end.

(** What [execute_command] returns and [format_response] receives: a message
    or the list of records of the query. *)
Inductive response : Type :=
| RStr (s : string)
| RList (l : list record).

(** ** format_response *)

Module Formatter.
Import PyStr.

Definition no_results : string :=
  "No results found or command executed successfully.".

Definition lease_path : string := "/ip/dhcp-server/lease".

Definition rule : string := nl ++ nl ++ "---" ++ nl ++ nl.

(** [f"### 💡 Found {count} active client(s) online.\n\n---\n\n"] *)
Definition count_header (count : nat) : string :=
  "### 💡 Found " ++ str_of_nat count ++ " active client(s) online." ++ rule.

(** [f"- **{k.replace('-', ' ').title()}**: `{v}`"] *)
Definition field_line (kv : string * scalar) : string :=
  "- **" ++ title (replace "-" " " (fst kv)) ++ "**: "
    ++ backtick ++ scalar_str (snd kv) ++ backtick.

(** [[lease for lease in response if lease.get('status') == 'bound']] *)
Definition active_leases (response : list record) : list record :=
  filter (fun lease => scalar_eq_str (dict_get "status" lease) "bound") response.

(** The truth value of [command_info and command_info.get('cmd') == path]:
    [None] and the empty dict are false. *)
Definition descriptor_has_path (command_info : option pydict) (path : string)
  : bool :=
  match command_info with
  | None => false
  | Some [] => false
  | Some d =>
      match dict_get "cmd" d with
      | Some v => pyval_eq_str v path
      | None => false
      end
  end.

Definition format_response (resp : response) (command_info : option pydict)
  : string :=
  match resp with
  | RStr s => s
  | RList [] => no_results
  | RList items =>
      let count_string :=
        if descriptor_has_path command_info lease_path
        then count_header (length (active_leases items))
        else "" in
      let formatted_string :=
        fold_left
          (fun acc item => acc ++ (join nl (map field_line item) ++ rule))
          items "" in
      count_string ++ formatted_string
  end.

End Formatter.

(** ** Exceptions, calls and results *)

(** An instance of a subclass of [Exception]: its class and [str(e)].
    ([KeyboardInterrupt] and [SystemExit] are not failures of a call and are
    outside the model.) *)
Record exn : Type := Exn { exn_class : string; exn_str : string }.

Inductive outcome (A : Type) : Type :=
| Return (a : A)
| Raise (e : exn).
Arguments Return {A} a.
Arguments Raise {A} e.

(** ** execute_command *)

Module Executor.
Import PyStr.

(** The resource object [api.get_resource(path)]: its [get] method, called
    with the keyword arguments, returns the records or raises. *)
Record resource : Type :=
  { resource_get : pydict -> outcome (list record) }.

(** The connection handle [api]. *)
Record router_api : Type :=
  { get_resource : pyval -> outcome resource }.

(** The calls made on the connection, oldest first. *)
Inductive call : Type :=
| CallGetResource (path : pyval)
| CallGet (path : pyval) (params : pydict).

(** A computation that logs its calls and returns or raises. *)
Definition M (A : Type) : Type := (list call * outcome A)%type.

Definition ret {A} (a : A) : M A := ([], Return a).
Definition raise {A} (e : exn) : M A := ([], Raise e).
Definition bind {A B} (m : M A) (k : A -> M B) : M B :=
  match m with
  | (log, Return a) => let (log', r) := k a in ((log ++ log')%list, r)
  | (log, Raise e) => (log, Raise e)
  end.
(** [try: m  except Exception as e: handler e] *)
Definition try_except {A} (m : M A) (handler : exn -> M A) : M A :=
  match m with
  | (log, Return a) => (log, Return a)
  | (log, Raise e) => let (log', r) := handler e in ((log ++ log')%list, r)
  end.
Definition lift {A} (c : call) (r : outcome A) : M A := ([c], r).

Notation "x <- m ;; k" := (bind m (fun x => k))
  (at level 61, m at next level, right associativity).

Definition no_command : string :=
  "The AI could not determine a valid command for your request. Please try rephrasing it.".

Definition reboot_path : string := "/system/reboot".

Definition reboot_advisory : string :=
  "Reboot command received. Please use the 'System Controls' section in the sidebar to confirm the reboot.".

Definition error_prefix : string :=
  "An error occurred while executing the command: ".

Definition type_name (v : pyval) : string :=
  match v with
  | PNone => "NoneType"
  | PBool _ => "bool"
  | PInt _ => "int"
  | PFloat _ => "float"
  | PStr _ => "str"
  | PList _ => "list"
  | PDict _ => "dict"
  end.

(** Unpacking [params] with two stars: a dict is unpacked into the keyword arguments (the keys of
    a dict from [json.loads] are strings), anything else is a [TypeError]. *)
Definition unpack_kwargs (params : pyval) : M pydict :=
  match params with
  | PDict d => ret d
  | v => raise (Exn "TypeError"
                    ("argument after ** must be a mapping, not " ++ type_name v))
  end.

(** [not command_info] *)
Definition falsy (command_info : option pydict) : bool :=
  match command_info with
  | None => true
  | Some [] => true
  | Some _ => false
  end.

Definition execute_command (api : router_api) (command_info : option pydict)
  : M response :=
  if falsy command_info then ret (RStr no_command)
  else
    let d := match command_info with Some d => d | None => [] end in
    (* cmd_path = command_info['cmd'] *)
    cmd_path <- match dict_get "cmd" d with
                | Some v => ret v
                | None => raise (Exn "KeyError" "'cmd'")
                end ;;
    (* params = command_info.get('params', {}) *)
    let params := dict_get_default "params" (PDict []) d in
    try_except
      (if pyval_eq_str cmd_path reboot_path then ret (RStr reboot_advisory)
       else
         res <- lift (CallGetResource cmd_path) (get_resource api cmd_path) ;;
         kwargs <- unpack_kwargs params ;;
         result <- lift (CallGet cmd_path kwargs) (resource_get res kwargs) ;;
         ret (RList result))
      (fun e => ret (RStr (error_prefix ++ exn_str e))).

(** The query calls of a log: the [get] calls on a resource. *)
Definition queries (log : list call) : list (pyval * pydict) :=
  flat_map (fun c => match c with
                     | CallGet p kw => [(p, kw)]
                     | CallGetResource _ => []
                     end) log.

End Executor.

(** ** json.loads *)

(** The decoder of Python's [json] module ([json.loads] with its default
    arguments): the scanner of [json/scanner.py] and the object, array and
    string decoders of [json/decoder.py].  A [parse] is what a decoder gives
    at a position of the text: the value with the text that follows it, or
    the [JSONDecodeError].  The decoders that call each other take a bound on
    the calls that remain; [json_loads] passes one that is never reached
    (CPython's own recursion limit is not modelled). *)
Module Json.
Import PyStr.

Inductive parse (A : Type) : Type :=
| Parsed (a : A) (rest : string)
| DecodeError
| OutOfFuel.
Arguments Parsed {A} a rest.
Arguments DecodeError {A}.
Arguments OutOfFuel {A}.

Definition is_ws (c : ascii) : bool :=
  Ascii.eqb c " " || Ascii.eqb c "009" || Ascii.eqb c "010" || Ascii.eqb c "013".

(** [WHITESPACE.match(s, end).end()] *)
Fixpoint skip_ws (s : string) : string :=
  match s with
  | String c rest => if is_ws c then skip_ws rest else s
  | EmptyString => s
  end.

Definition is_digit (c : ascii) : bool :=
  let n := nat_of_ascii c in (48 <=? n)%nat && (n <=? 57)%nat.

Definition digit_val (c : ascii) : Z := Z.of_nat (nat_of_ascii c) - 48.

(** The longest run of digits at the head of [s], and what follows it. *)
Fixpoint span_digits (s : string) : string * string :=
  match s with
  | String c rest =>
      if is_digit c then let (ds, r) := span_digits rest in (String c ds, r)
      else ("", s)
  | EmptyString => ("", s)
  end.

Fixpoint Z_of_digits (acc : Z) (ds : string) : Z :=
  match ds with
  | EmptyString => acc
  | String c rest => Z_of_digits (10 * acc + digit_val c) rest
  end.

Definition hex_val (c : ascii) : option N :=
  let n := nat_of_ascii c in
  if (48 <=? n)%nat && (n <=? 57)%nat then Some (N.of_nat (n - 48))
  else if (65 <=? n)%nat && (n <=? 70)%nat then Some (N.of_nat (n - 55))
  else if (97 <=? n)%nat && (n <=? 102)%nat then Some (N.of_nat (n - 87))
  else None.

Definition hex4 (a b c d : ascii) : option N :=
  match hex_val a, hex_val b, hex_val c, hex_val d with
  | Some x, Some y, Some z, Some w => Some (((x * 16 + y) * 16 + z) * 16 + w)%N
  | _, _, _, _ => None
  end.

(** A character of a decoded string: a byte of the text as it stands, or
    the code point of a [\uXXXX] escape. *)
Inductive unit_ : Type :=
| Raw (c : ascii)
| Esc (n : N).

(** The escapes of [BACKSLASH] in [json/decoder.py]. *)
Definition simple_escape (e : ascii) : option ascii :=
  if Ascii.eqb e "034" then Some "034"%char
  else if Ascii.eqb e "\" then Some "\"%char
  else if Ascii.eqb e "/" then Some "/"%char
  else if Ascii.eqb e "b" then Some "008"%char
  else if Ascii.eqb e "f" then Some "012"%char
  else if Ascii.eqb e "n" then Some "010"%char
  else if Ascii.eqb e "r" then Some "013"%char
  else if Ascii.eqb e "t" then Some "009"%char
  else None.

Definition cons_unit (u : unit_) (p : parse (list unit_)) : parse (list unit_) :=
  match p with
  | Parsed us rest => Parsed (u :: us) rest
  | DecodeError => DecodeError
  | OutOfFuel => OutOfFuel
  end.

(** [scanstring] in strict mode, from the character after the opening
    quote: up to the closing quote, a control character being an error. *)
Fixpoint scan_units (s : string) : parse (list unit_) :=
  match s with
  | EmptyString => DecodeError
  | String c rest =>
      if Ascii.eqb c "034" then Parsed [] rest
      else if Ascii.eqb c "\" then
        match rest with
        | EmptyString => DecodeError
        | String e rest1 =>
            if Ascii.eqb e "u" then
              match rest1 with
              | String h1 (String h2 (String h3 (String h4 rest2))) =>
                  match hex4 h1 h2 h3 h4 with
                  | Some n => cons_unit (Esc n) (scan_units rest2)
                  | None => DecodeError
                  end
              | _ => DecodeError
              end
            else
              match simple_escape e with
              | Some ch => cons_unit (Raw ch) (scan_units rest1)
              | None => DecodeError
              end
        end
      else if (nat_of_ascii c <? 32)%nat then DecodeError
      else cons_unit (Raw c) (scan_units rest)
  end.

(** A high surrogate escape followed by a low surrogate escape is one
    code point. *)
Fixpoint join_surrogates (us : list unit_) : list unit_ :=
  match us with
  | Esc hi :: ((Esc lo :: rest) as tl) =>
      if ((55296 <=? hi) && (hi <=? 56319) && (56320 <=? lo) && (lo <=? 57343))%N
      then Esc (65536 + (hi - 55296) * 1024 + (lo - 56320))%N :: join_surrogates rest
      else Esc hi :: join_surrogates tl
  | u :: rest => u :: join_surrogates rest
  | [] => []
  end.

Definition byte_of_N (n : N) : ascii := ascii_of_N (n mod 256).

(** The UTF-8 bytes of a code point. *)
Definition utf8 (n : N) : string :=
  (if n <? 128 then String (byte_of_N n) ""
   else if n <? 2048 then
     String (byte_of_N (192 + n / 64)) (String (byte_of_N (128 + n mod 64)) "")
   else if n <? 65536 then
     String (byte_of_N (224 + n / 4096))
       (String (byte_of_N (128 + (n / 64) mod 64))
          (String (byte_of_N (128 + n mod 64)) ""))
   else
     String (byte_of_N (240 + n / 262144))
       (String (byte_of_N (128 + (n / 4096) mod 64))
          (String (byte_of_N (128 + (n / 64) mod 64))
             (String (byte_of_N (128 + n mod 64)) ""))))%N.

Fixpoint string_of_units (us : list unit_) : string :=
  match us with
  | [] => ""
  | Raw c :: rest => String c (string_of_units rest)
  | Esc n :: rest => utf8 n ++ string_of_units rest
  end.

Definition scanstring (s : string) : parse string :=
  match scan_units s with
  | Parsed us rest => Parsed (string_of_units (join_surrogates us)) rest
  | DecodeError => DecodeError
  | OutOfFuel => OutOfFuel
  end.

(** [s] without the prefix [p], when it has it. *)
Fixpoint strip_prefix (p s : string) : option string :=
  match p, s with
  | EmptyString, _ => Some s
  | String a p', String b s' => if Ascii.eqb a b then strip_prefix p' s' else None
  | String _ _, EmptyString => None
  end.

(** The integer part of [NUMBER_RE]: an optional minus sign, then a zero
    or a digit other than zero with the digits that follow it. *)
Definition match_integer (s : string) : option (string * string) :=
  let (sign, body) :=
    match s with
    | String c r => if Ascii.eqb c "-" then ("-", r) else ("", s)
    | EmptyString => ("", s)
    end in
  match body with
  | String c r =>
      if Ascii.eqb c "0" then Some (sign ++ "0", r)
      else if is_digit c then
        let (ds, r') := span_digits body in Some (sign ++ ds, r')
      else None
  | EmptyString => None
  end.

(** The optional fraction of [NUMBER_RE]: a point and one or more digits. *)
Definition match_frac (s : string) : string * string :=
  match s with
  | String c r =>
      if Ascii.eqb c "." then
        match span_digits r with
        | (EmptyString, _) => ("", s)
        | (ds, r') => ("." ++ ds, r')
        end
      else ("", s)
  | EmptyString => ("", s)
  end.

(** The optional exponent of [NUMBER_RE]: [e] or [E], an optional sign,
    one or more digits. *)
Definition match_exp (s : string) : string * string :=
  match s with
  | String e r =>
      if Ascii.eqb e "e" || Ascii.eqb e "E" then
        let (sign, r1) :=
          match r with
          | String g r2 =>
              if Ascii.eqb g "-" || Ascii.eqb g "+" then (String g "", r2)
              else ("", r)
          | EmptyString => ("", r)
          end in
        match span_digits r1 with
        | (EmptyString, _) => ("", s)
        | (ds, r') => (String e sign ++ ds, r')
        end
      else ("", s)
  | EmptyString => ("", s)
  end.

Definition int_of_lexeme (lexeme : string) : Z :=
  match lexeme with
  | String c ds =>
      if Ascii.eqb c "-" then - Z_of_digits 0 ds else Z_of_digits 0 lexeme
  | EmptyString => 0
  end.

(** [match_number]: an [int] when there is neither fraction nor exponent,
    a [float] otherwise. *)
Definition scan_number (s : string) : option (pyval * string) :=
  match match_integer s with
  | None => None
  | Some (integer, r) =>
      let (frac, r1) := match_frac r in
      let (exp, r2) := match_exp r1 in
      match frac, exp with
      | EmptyString, EmptyString => Some (PInt (int_of_lexeme integer), r2)
      | _, _ => Some (PFloat (integer ++ frac ++ exp), r2)
      end
  end.

(** The scalars of [_scan_once], tried in its order. *)
Definition scan_scalar (s : string) : parse pyval :=
  match strip_prefix "null" s with
  | Some r => Parsed PNone r
  | None =>
  match strip_prefix "true" s with
  | Some r => Parsed (PBool true) r
  | None =>
  match strip_prefix "false" s with
  | Some r => Parsed (PBool false) r
  | None =>
  match scan_number s with
  | Some (v, r) => Parsed v r
  | None =>
  match strip_prefix "NaN" s with
  | Some r => Parsed (PFloat "NaN") r
  | None =>
  match strip_prefix "Infinity" s with
  | Some r => Parsed (PFloat "Infinity") r
  | None =>
  match strip_prefix "-Infinity" s with
  | Some r => Parsed (PFloat "-Infinity") r
  | None => DecodeError
  end end end end end end end.

(** [dict(pairs)]: a repeated key keeps its first place and its last value. *)
Definition dict_of_pairs (pairs : list (string * pyval)) : pydict :=
  fold_left (fun d kv => dict_set (fst kv) (snd kv) d) pairs [].

Section Containers.
(** [scan_once], as the object and array decoders receive it. *)
Variable scan_once : string -> parse pyval.

(** The loop of [JSONObject], from the character after the opening quote
    of a key; [pairs] holds the pairs read so far. *)
Fixpoint object_pairs (fuel : nat) (s : string) (pairs : list (string * pyval))
  : parse pyval :=
  match fuel with
  | O => OutOfFuel
  | S fuel' =>
      match scanstring s with
      | Parsed key r =>
          match skip_ws r with
          | String colon r1 =>
              if Ascii.eqb colon ":" then
                match scan_once (skip_ws r1) with
                | Parsed value r2 =>
                    let pairs' := (pairs ++ [(key, value)])%list in
                    match skip_ws r2 with
                    | String c r3 =>
                        if Ascii.eqb c "}" then Parsed (PDict (dict_of_pairs pairs')) r3
                        else if Ascii.eqb c "," then
                          match skip_ws r3 with
                          | String q r4 =>
                              if Ascii.eqb q "034" then object_pairs fuel' r4 pairs'
                              else DecodeError
                          | EmptyString => DecodeError
                          end
                        else DecodeError
                    | EmptyString => DecodeError
                    end
                | DecodeError => DecodeError
                | OutOfFuel => OutOfFuel
                end
              else DecodeError
          | EmptyString => DecodeError
          end
      | DecodeError => DecodeError
      | OutOfFuel => OutOfFuel
      end
  end.

(** [JSONObject], from the character after the opening brace. *)
Definition scan_object (fuel : nat) (s : string) : parse pyval :=
  match skip_ws s with
  | String c r =>
      if Ascii.eqb c "}" then Parsed (PDict []) r
      else if Ascii.eqb c "034" then object_pairs fuel r []
      else DecodeError
  | EmptyString => DecodeError
  end.

(** The loop of [JSONArray], from the first character of an item;
    [values] holds the items read so far. *)
Fixpoint array_items (fuel : nat) (s : string) (values : list pyval)
  : parse pyval :=
  match fuel with
  | O => OutOfFuel
  | S fuel' =>
      match scan_once s with
      | Parsed value r =>
          let values' := (values ++ [value])%list in
          match skip_ws r with
          | String c r1 =>
              if Ascii.eqb c "]" then Parsed (PList values') r1
              else if Ascii.eqb c "," then array_items fuel' (skip_ws r1) values'
              else DecodeError
          | EmptyString => DecodeError
          end
      | DecodeError => DecodeError
      | OutOfFuel => OutOfFuel
      end
  end.

(** [JSONArray], from the character after the opening bracket. *)
Definition scan_array (fuel : nat) (s : string) : parse pyval :=
  match skip_ws s with
  | String c r =>
      if Ascii.eqb c "]" then Parsed (PList []) r
      else array_items fuel (skip_ws s) []
  | EmptyString => DecodeError
  end.

End Containers.

(** [_scan_once] *)
Fixpoint scan_once (fuel : nat) (s : string) {struct fuel} : parse pyval :=
  match fuel with
  | O => OutOfFuel
  | S fuel' =>
      match s with
      | EmptyString => DecodeError
      | String c rest =>
          if Ascii.eqb c "034" then
            match scanstring rest with
            | Parsed str r => Parsed (PStr str) r
            | DecodeError => DecodeError
            | OutOfFuel => OutOfFuel
            end
          else if Ascii.eqb c "{" then scan_object (scan_once fuel') fuel' rest
          else if Ascii.eqb c "[" then scan_array (scan_once fuel') fuel' rest
          else scan_scalar s
      end
  end.

Inductive loads_result : Type :=
| Loaded (v : pyval)
| JSONDecodeError
| RecursionError.

(** [json.loads(s)]: one value between optional whitespace, and nothing
    after it. *)
Definition json_loads (s : string) : loads_result :=
  match scan_once (S (String.length s)) (skip_ws s) with
  | Parsed v rest =>
      match skip_ws rest with
      | EmptyString => Loaded v
      | String _ _ => JSONDecodeError
      end
  | DecodeError => JSONDecodeError
  | OutOfFuel => RecursionError
  end.

(** A parse of [s] that is no [OutOfFuel] and, when it has a value, leaves
    less text than [s]. *)
Definition consumes {A : Type} (p : parse A) (s : string) : Prop :=
  match p with
  | Parsed _ rest => String.length rest < String.length s
  | DecodeError => True
  | OutOfFuel => False
  end.

End Json.

(** ** get_ai_response *)

Module Translator.
Import PyStr Json.

(** The hosted model, as [get_ai_response] uses it. *)
Record genai : Type :=
  { (** [genai.configure(api_key=api_key)] followed by
        [genai.GenerativeModel('gemini-1.5-flash')]: the exception raised,
        if any *)
    configure : string -> option exn;
    (** [model.generate_content(full_prompt)] under that key, followed by
        [response.text]: the reply, or the exception raised by either *)
    generate_content : string -> string -> outcome string }.

(** What the function shows and logs, oldest first. *)
Inductive ui_event : Type :=
| StError (message : string)
| Print (message : string).

Definition system_prompt : string :=
  join nl
    [
     "";
     "    You are a highly intelligent assistant for MikroTik RouterOS. Your only task is to translate a user's plain English request into a single, valid JSON object representing the corresponding RouterOS API resource path.";
     "";
     "    The JSON object MUST contain two keys:";
     "    1. " ++ dq ++ "cmd" ++ dq ++ ": The API resource path as a string (e.g., " ++ dq ++ "/system/resource" ++ dq ++ "). DO NOT include " ++ dq ++ "/print" ++ dq ++ ".";
     "    2. " ++ dq ++ "params" ++ dq ++ ": A dictionary of parameters. This can be an empty dictionary {} if no parameters are needed.";
     "";
     "    YOU MUST ONLY OUTPUT THE RAW JSON OBJECT AND NOTHING ELSE. Do not include explanations, apologies, or any markdown formatting like ```json.";
     "";
     "    Here are some examples of API resource paths for your reference:";
     "    - /system/resource";
     "    - /log";
     "    - /interface";
     "    - /ip/address";
     "    - /ip/firewall/filter";
     "    - /interface/wireless/registration-table";
     "    - /ip/dhcp-server/lease";
     "    - /system/reboot";
     "";
     "    Example 1:";
     "    User request: " ++ dq ++ "what is the router uptime?" ++ dq;
     "    Your response:";
     "    {" ++ dq ++ "cmd" ++ dq ++ ": " ++ dq ++ "/system/resource" ++ dq ++ ", " ++ dq ++ "params" ++ dq ++ ": {}}";
     "";
     "    Example 2:";
     "    User request: " ++ dq ++ "show connected wifi devices" ++ dq;
     "    Your response:";
     "    {" ++ dq ++ "cmd" ++ dq ++ ": " ++ dq ++ "/interface/wireless/registration-table" ++ dq ++ ", " ++ dq ++ "params" ++ dq ++ ": {}}";
     "    ";
     "    Example 3:";
     "    User request: " ++ dq ++ "how many clients are online?" ++ dq;
     "    Your response:";
     "    {" ++ dq ++ "cmd" ++ dq ++ ": " ++ dq ++ "/ip/dhcp-server/lease" ++ dq ++ ", " ++ dq ++ "params" ++ dq ++ ": {}}";
     "";
     "    Now, process the following user request.";
     "    "
    ].

(** The f-string of [full_prompt]: the template, a newline, [User request: ]
    and the user input between double quotes. *)
Definition full_prompt (user_input : string) : string :=
  system_prompt ++ nl ++ "User request: " ++ dq ++ user_input ++ dq.

(** The suffix of [s] that starts at its first [c]. *)
Fixpoint from_first (c : ascii) (s : string) : option string :=
  match s with
  | EmptyString => None
  | String a rest => if Ascii.eqb a c then Some s else from_first c rest
  end.

(** The prefix of [s] that ends at its last [c]. *)
Fixpoint upto_last (c : ascii) (s : string) : option string :=
  match s with
  | EmptyString => None
  | String a rest =>
      match upto_last c rest with
      | Some p => Some (String a p)
      | None => if Ascii.eqb a c then Some (String a "") else None
      end
  end.

(** [re.search(r'\{.*\}', text, re.DOTALL)] and [group(0)] of the match:
    the search stops at the leftmost opening brace from which the pattern
    matches, the dot matches every character and the star is greedy, so the
    match runs from the first opening brace to the last closing brace after
    it; there is no match when no closing brace follows the first opening
    one. *)
Definition re_search_braces (text : string) : option string :=
  match from_first "{" text with
  | Some (String open rest) =>
      match upto_last "}" rest with
      | Some body => Some (String open body)
      | None => None
      end
  | _ => None
  end.

Definition msg_no_key : string :=
  "Google AI API Key is not set. Please add it in the sidebar.".
Definition msg_configure (e : exn) : string :=
  "Failed to configure AI model. Is your API key correct? Error: " ++ exn_str e.
Definition msg_no_object : string :=
  "AI Response Error: The model did not return a valid command object.".
Definition msg_missing_keys : string :=
  "AI Response Error: The returned command is missing required keys.".
Definition msg_parse : string :=
  "AI Response Error: Failed to parse the command from the model's response.".
Definition msg_auth : string :=
  "Authentication Error: Your Google AI API Key is invalid. Please check it in the sidebar.".
Definition msg_unexpected : string :=
  "An unexpected AI error occurred. Please check the console for details.".

(** The handler [except Exception as e] of the second [try]. *)
Definition on_exception (e : exn) : list ui_event * option pydict :=
  ([StError (if contains "API_KEY_INVALID" (exn_str e)
             then msg_auth else msg_unexpected);
    Print ("Error during AI processing: " ++ exn_str e)],
   None).

Fixpoint list_has_str (s : string) (l : list pyval) : bool :=
  match l with
  | [] => false
  | v :: rest => pyval_eq_str v s || list_has_str s rest
  end.

(** [isinstance(v, dict)], [None] standing for the [None] of a missing key *)
Definition isinstance_dict (v : option pyval) : bool :=
  match v with
  | Some (PDict _) => true
  | _ => false
  end.

Definition is_some {A : Type} (o : option A) : bool :=
  match o with
  | Some _ => true
  | None => false
  end.

(** [if "cmd" in command_info and isinstance(command_info.get("params"), dict)]
    with its two branches.  Only a dict has [get]: on a list or a string
    that holds ["cmd"] the call raises [AttributeError], and on a value
    that is no container the [in] raises [TypeError]; both reach the
    handler of [Exception]. *)
Definition validate (command_info : pyval) : list ui_event * option pydict :=
  let missing := ([StError msg_missing_keys], None) in
  let no_get (v : pyval) :=
    on_exception
      (Exn "AttributeError"
           ("'" ++ Executor.type_name v ++ "' object has no attribute 'get'")) in
  match command_info with
  | PDict d =>
      if is_some (dict_get "cmd" d) && isinstance_dict (dict_get "params" d)
      then ([], Some d)
      else missing
  | PList l => if list_has_str "cmd" l then no_get command_info else missing
  | PStr s => if contains "cmd" s then no_get command_info else missing
  | v =>
      on_exception
        (Exn "TypeError"
             ("argument of type '" ++ Executor.type_name v ++ "' is not iterable"))
  end.

Definition get_ai_response (ai : genai) (user_input api_key : string)
  : list ui_event * option pydict :=
  if String.eqb api_key "" then ([StError msg_no_key], None)
  else
    match configure ai api_key with
    | Some e => ([StError (msg_configure e)], None)
    | None =>
        match generate_content ai api_key (full_prompt user_input) with
        | Raise e => on_exception e
        | Return text =>
            match re_search_braces text with
            | None =>
                ([StError msg_no_object; Print ("AI Raw Response: " ++ text)],
                 None)
            | Some command_str =>
                match json_loads command_str with
                | Loaded command_info => validate command_info
                | JSONDecodeError =>
                    ([StError msg_parse;
                      Print ("AI Raw Response (failed to parse): " ++ text)],
                     None)
                | RecursionError =>
                    on_exception
                      (Exn "RecursionError"
                           "maximum recursion depth exceeded")
                end
            end
        end
    end.

End Translator.

(** ** Reference definitions and sample inputs *)

Module Samples.
Import PyStr.

(** The number of records whose [status] field equals [bound]. *)
Fixpoint bound_count (items : list record) : nat :=
  match items with
  | [] => 0
  | r :: rest =>
      match dict_get "status" r with
      | Some (SStr status) =>
          if String.eqb status "bound" then S (bound_count rest)
          else bound_count rest
      | _ => bound_count rest
      end
  end.

(** The label of a field: hyphens replaced by spaces, then title-cased. *)
Definition label (field : string) : string := title (replace "-" " " field).

(** The block of one record: a line per field, in the record's field order,
    closed by the horizontal rule. *)
Definition record_block (r : record) : string :=
  join nl (map (fun kv => "- **" ++ label (fst kv) ++ "**: "
                            ++ backtick ++ scalar_str (snd kv) ++ backtick) r)
    ++ Formatter.rule.

(** The listing of a result: the blocks of its records, in their order. *)
Fixpoint listing (items : list record) : string :=
  match items with
  | [] => ""
  | r :: rest => record_block r ++ listing rest
  end.

Definition lease_descriptor : pydict :=
  [("cmd", PStr "/ip/dhcp-server/lease"); ("params", PDict [])].

Definition mac_record : record :=
  [("mac-address", SStr "AA:BB"); ("status", SStr "bound")].

Definition three_leases : list record :=
  [ mac_record;
    [("mac-address", SStr "CC:DD"); ("status", SStr "waiting")];
    [("address", SStr "10.0.0.7"); ("status", SStr "bound"); ("dynamic", SBool true)] ].

(** A connection whose every query returns [recs]. *)
Definition api_returning (recs : list record) : Executor.router_api :=
  {| Executor.get_resource := fun _ =>
       Return {| Executor.resource_get := fun _ => Return recs |} |}.

(** A connection whose every query raises [e]. *)
Definition api_failing (e : exn) : Executor.router_api :=
  {| Executor.get_resource := fun _ =>
       Return {| Executor.resource_get := fun _ => Raise e |} |}.

(** A connection that refuses to hand out a resource. *)
Definition api_closed (e : exn) : Executor.router_api :=
  {| Executor.get_resource := fun _ => Raise e |}.

Definition reboot_with_params : pydict :=
  [("cmd", PStr "/system/reboot"); ("params", PDict [("delay", PStr "5s")])].

Definition interface_query : pydict :=
  [("cmd", PStr "/interface"); ("params", PDict [("name", PStr "ether1")])].

(** A CommandDescriptor as the data model has it: a non-empty string under
    [cmd], a mapping under [params]. *)
Definition valid_descriptor (d : pydict) : bool :=
  match dict_get "cmd" d, dict_get "params" d with
  | Some (PStr p), Some (PDict _) => negb (String.eqb p "")
  | _, _ => false
  end.

(** A model service that accepts the key and replies [text]. *)
Definition ai_replying (text : string) : Translator.genai :=
  {| Translator.configure := fun _ => None;
     Translator.generate_content := fun _ _ => Return text |}.

Definition resource_object : string :=
  "{" ++ dq ++ "cmd" ++ dq ++ ": " ++ dq ++ "/system/resource" ++ dq ++ ", "
      ++ dq ++ "params" ++ dq ++ ": {}}".

Definition log_object : string :=
  "{" ++ dq ++ "cmd" ++ dq ++ ": " ++ dq ++ "/log" ++ dq ++ ", "
      ++ dq ++ "params" ++ dq ++ ": {}}".

Definition empty_cmd_object : string :=
  "{" ++ dq ++ "cmd" ++ dq ++ ": " ++ dq ++ dq ++ ", "
      ++ dq ++ "params" ++ dq ++ ": {}}".

(** The reply of the spec's example. *)
Definition sure_reply : string := "Sure! " ++ resource_object ++ " Hope that helps!".

(** A reply that holds two command objects. *)
Definition two_objects_reply : string :=
  "Either " ++ resource_object ++ " or " ++ log_object ++ ".".

(** The shape the translator requires of the parsed reply: a dict that has
    the key [cmd] and holds a dict under [params]. *)
Definition well_shaped (v : pyval) : bool :=
  match v with
  | PDict d =>
      match dict_get "cmd" d, dict_get "params" d with
      | Some _, Some (PDict _) => true
      | _, _ => false
      end
  | _ => false
  end.

(** The error paths of a translation: no credential, a failure of the
    service (when the model is set up or when it is called), a reply without
    a JSON-object substring, a substring that does not parse, a parsed value
    of the wrong shape. *)
Inductive error_path (ai : Translator.genai) (user_input api_key : string) : Prop :=
| MissingCredential :
    api_key = "" ->
    error_path ai user_input api_key
| ConfigureFailure (e : exn) :
    Translator.configure ai api_key = Some e ->
    error_path ai user_input api_key
| ServiceFailure (e : exn) :
    Translator.generate_content ai api_key (Translator.full_prompt user_input)
    = Raise e ->
    error_path ai user_input api_key
| NoObjectInReply (text : string) :
    Translator.generate_content ai api_key (Translator.full_prompt user_input)
    = Return text ->
    Translator.re_search_braces text = None ->
    error_path ai user_input api_key
| UnparseableObject (text command_str : string) :
    Translator.generate_content ai api_key (Translator.full_prompt user_input)
    = Return text ->
    Translator.re_search_braces text = Some command_str ->
    Json.json_loads command_str = Json.JSONDecodeError ->
    error_path ai user_input api_key
| WrongShape (text command_str : string) (v : pyval) :
    Translator.generate_content ai api_key (Translator.full_prompt user_input)
    = Return text ->
    Translator.re_search_braces text = Some command_str ->
    Json.json_loads command_str = Json.Loaded v ->
    well_shaped v = false ->
    error_path ai user_input api_key.

End Samples.

(** ** The session: connecting and the chat turn *)

(** The parts of the script around the three stages: [connect_to_mikrotik],
    the Connect button and the block run for one chat input.  The session
    state holds the widget values the script reads and the three keys it
    sets.  What the script shows is kept as a list of displays; reruns of the
    page and the spinners are not modelled. *)
Module Session.
Import PyStr.

(** A [routeros_api.RouterOsApiPool]: its [get_api()] logs in and returns the
    connection handle, or raises; its [disconnect()] may raise. *)
Record api_pool : Type :=
  { get_api : outcome Executor.router_api;
    disconnect : option exn }.

(** The [routeros_api] library as [connect_to_mikrotik] uses it. *)
Record routeros : Type :=
  { (** [RouterOsApiPool(host, username=user, password=password,
        plaintext_login=True)] *)
    RouterOsApiPool : string -> string -> string -> outcome api_pool;
    (** [isinstance(e, routeros_api.exceptions.RouterOsApiConnectionError)] *)
    is_connection_error : exn -> bool }.

(** One entry of the transcript. *)
Record chat_message : Type :=
  { role : string; content : string }.

Record session_state : Type :=
  { host : string;
    user : string;
    password : string;
    api_key : string;
    api_connection : option Executor.router_api;
    connection_pool : option api_pool;
    messages : list chat_message }.

(** What the script puts on the page, oldest first. *)
Inductive display : Type :=
| SidebarError (message : string)
| Warning (message : string)
| Info (message : string)
| ChatMarkdown (role : string) (text : string)
| FromTranslator (event : Translator.ui_event).

Definition greeting : string :=
  "Hello! Please provide your credentials and API key in the sidebar to get started.".

(** The session state after the first run of the script, given the widget
    values. *)
Definition initial_state (host user password api_key : string) : session_state :=
  {| host := host; user := user; password := password; api_key := api_key;
     api_connection := None;
     connection_pool := None;
     messages := [ {| role := "assistant"; content := greeting |} ] |}.

(** The two handlers of [connect_to_mikrotik]. *)
Definition connect_error (lib : routeros) (e : exn) : display :=
  if is_connection_error lib e
  then SidebarError ("Connection Error: " ++ exn_str e)
  else SidebarError ("An unexpected error occurred: " ++ exn_str e).

Definition connect_to_mikrotik (lib : routeros) (host user password : string)
  (st : session_state) : session_state * list display * bool :=
  match RouterOsApiPool lib host user password with
  | Raise e => (st, [connect_error lib e], false)
  | Return connection =>
      match get_api connection with
      | Raise e => (st, [connect_error lib e], false)
      | Return api =>
          ({| host := Session.host st; user := Session.user st;
              password := Session.password st; api_key := api_key st;
              api_connection := Some api;
              connection_pool := Some connection;
              messages := messages st |},
           [], true)
      end
  end.

Definition nonempty (s : string) : bool := negb (String.eqb s "").

(** The body of [if st.button("Connect")], the button shown while no
    connection is held. *)
Definition on_connect (lib : routeros) (st : session_state)
  : session_state * list display :=
  if nonempty (host st) && nonempty (user st) && nonempty (api_key st) then
    let '(st', shown, _) :=
      connect_to_mikrotik lib (host st) (user st) (password st) st in
    (st', shown)
  else (st, [Warning "Please provide all connection and API key details."]).

Definition append_message (m : chat_message) (st : session_state) : session_state :=
  {| host := host st; user := user st; password := password st;
     api_key := api_key st;
     api_connection := api_connection st;
     connection_pool := connection_pool st;
     messages := (messages st ++ [m])%list |}.

(** What one chat input leaves behind: the state, what was shown, the calls
    made on the router, and the exception that ended the script, if any. *)
Record turn : Type :=
  { final : session_state;
    shown : list display;
    router_calls : list Executor.call;
    uncaught : option exn }.

(** The block [if prompt := st.chat_input(...)]. *)
Definition chat_turn (ai : Translator.genai) (prompt : string) (st : session_state)
  : turn :=
  if String.eqb prompt "" then
    {| final := st; shown := []; router_calls := []; uncaught := None |}
  else
    match api_connection st with
    | None =>
        {| final := st;
           shown := [Info "Please connect to a router and provide an API key first."];
           router_calls := []; uncaught := None |}
    | Some api =>
        if String.eqb (api_key st) "" then
          {| final := st;
             shown := [Info "Please enter your Google AI API Key in the sidebar."];
             router_calls := []; uncaught := None |}
        else
          let st1 := append_message {| role := "user"; content := prompt |} st in
          let (events, command_info) :=
            Translator.get_ai_response ai prompt (api_key st) in
          let before :=
            (ChatMarkdown "user" prompt :: map FromTranslator events)%list in
          match Executor.execute_command api command_info with
          | (calls, Raise e) =>
              {| final := st1; shown := before;
                 router_calls := calls; uncaught := Some e |}
          | (calls, Return response) =>
              let formatted_output :=
                Formatter.format_response response command_info in
              {| final :=
                   append_message
                     {| role := "assistant"; content := formatted_output |} st1;
                 shown := (before ++ [ChatMarkdown "assistant" formatted_output])%list;
                 router_calls := calls; uncaught := None |}
          end
    end.

(** The body of [if st.button("Disconnect")], the button shown while a
    connection is held: the pool is disconnected and the two keys are
    cleared; an exception of [disconnect()] ends the script before that. *)
Definition on_disconnect (st : session_state) : session_state * option exn :=
  match connection_pool st with
  | None =>
      (st, Some (Exn "AttributeError"
                     "'NoneType' object has no attribute 'disconnect'"))
  | Some pool =>
      match disconnect pool with
      | Some e => (st, Some e)
      | None =>
          ({| host := host st; user := user st; password := password st;
              api_key := api_key st;
              api_connection := None;
              connection_pool := None;
              messages := messages st |},
           None)
      end
  end.

(** What the user does on the page. *)
Inductive action : Type :=
| ClickConnect
| ClickDisconnect
| ChatInput (ai : Translator.genai) (prompt : string).

(** The state after one action.  The sidebar shows the Disconnect button
    while [api_connection] is set and the Connect button otherwise; a button
    that is not on the page cannot be clicked. *)
Definition step (lib : routeros) (st : session_state) (a : action)
  : session_state :=
  match a, api_connection st with
  | ClickConnect, None => fst (on_connect lib st)
  | ClickConnect, Some _ => st
  | ClickDisconnect, Some _ => fst (on_disconnect st)
  | ClickDisconnect, None => st
  | ChatInput ai prompt, _ => final (chat_turn ai prompt st)
  end.

(** The state after a sequence of actions. *)
Definition run (lib : routeros) (st : session_state) (actions : list action)
  : session_state :=
  fold_left (step lib) actions st.

(** The two connection keys are set together or not at all. *)
Definition keys_agree (st : session_state) : Prop :=
  (api_connection st = None /\ connection_pool st = None)
  \/ (exists (api : Executor.router_api) (pool : api_pool),
         api_connection st = Some api /\ connection_pool st = Some pool).

(** The [st.error] messages of a translator log. *)
Definition st_errors (log : list Translator.ui_event) : list string :=
  flat_map (fun ev => match ev with
                      | Translator.StError m => [m]
                      | Translator.Print _ => []
                      end) log.

(** [c in s] for one character *)
Fixpoint has_char (c : ascii) (s : string) : bool :=
  match s with
  | EmptyString => false
  | String a rest => Ascii.eqb a c || has_char c rest
  end.

End Session.

Module SessionSamples.
Import Session Samples.

Definition login_refused : exn :=
  Exn "RouterOsApiCommunicationError" "invalid user name or password".

(** A library whose pool logs in and hands out [api]. *)
Definition lib_accepting (api : Executor.router_api) : routeros :=
  {| RouterOsApiPool := fun _ _ _ =>
       Return {| get_api := Return api; disconnect := None |};
     is_connection_error := fun e =>
       String.eqb (exn_class e) "RouterOsApiConnectionError" |}.

(** A library whose pool is built but whose login raises [e]. *)
Definition lib_refusing (e : exn) : routeros :=
  {| RouterOsApiPool := fun _ _ _ =>
       Return {| get_api := Raise e; disconnect := None |};
     is_connection_error := fun e =>
       String.eqb (exn_class e) "RouterOsApiConnectionError" |}.

Definition fresh_session : session_state :=
  initial_state "192.168.88.1" "admin" "" "key".

Definition connected_session : session_state :=
  {| host := "192.168.88.1"; user := "admin"; password := ""; api_key := "key";
     api_connection := Some (api_returning three_leases);
     connection_pool :=
       Some {| get_api := Return (api_returning three_leases);
               disconnect := None |};
     messages := [ {| role := "assistant"; content := greeting |} ] |}.

Definition failing_session : session_state :=
  {| host := "192.168.88.1"; user := "admin"; password := ""; api_key := "key";
     api_connection := Some (api_failing login_refused);
     connection_pool :=
       Some {| get_api := Return (api_failing login_refused);
               disconnect := None |};
     messages := [ {| role := "assistant"; content := greeting |} ] |}.

Definition reboot_object : string :=
  "{" ++ PyStr.dq ++ "cmd" ++ PyStr.dq ++ ": " ++ PyStr.dq
      ++ "/system/reboot" ++ PyStr.dq ++ ", "
      ++ PyStr.dq ++ "params" ++ PyStr.dq ++ ": {}}".

Definition lease_object : string :=
  "{" ++ PyStr.dq ++ "cmd" ++ PyStr.dq ++ ": " ++ PyStr.dq
      ++ "/ip/dhcp-server/lease" ++ PyStr.dq ++ ", "
      ++ PyStr.dq ++ "params" ++ PyStr.dq ++ ": {}}".

End SessionSamples.

(** ** Properties of format_response *)

Module FormatterProps.
Import PyStr Formatter Samples.

Lemma append_assoc (a b c : string) : (a ++ b) ++ c = a ++ (b ++ c).
Proof. induction a as [|x a IH]; simpl; [reflexivity | now rewrite IH]. Qed.

Lemma append_empty_r (a : string) : a ++ "" = a.
Proof. induction a as [|x a IH]; simpl; [reflexivity | now rewrite IH]. Qed.

(** The loop of [format_response] started from [acc] appends the listing. *)
Lemma fold_blocks (items : list record) (acc : string) :
  fold_left (fun acc item => acc ++ (join nl (map field_line item) ++ rule)) items acc
  = acc ++ listing items.
Proof.
  revert acc; induction items as [|r items IH]; intro acc.
  - cbn [fold_left listing]. now rewrite append_empty_r.
  - cbn [fold_left listing]. rewrite IH, append_assoc. reflexivity.
Qed.

Lemma active_leases_count (items : list record) :
  length (active_leases items) = bound_count items.
Proof.
  induction items as [|r items IH]; simpl; [reflexivity|].
  unfold scalar_eq_str.
  destruct (dict_get "status" r) as [[s| | |]|]; try exact IH.
  destruct (String.eqb s "bound"); simpl; now rewrite IH.
Qed.

Lemma has_path_nonempty (d : pydict) (path : string) :
  dict_get "cmd" d = Some (PStr path) ->
  descriptor_has_path (Some d) path = true.
Proof.
  intro H. unfold descriptor_has_path.
  destruct d as [|kv d]; [discriminate|].
  rewrite H. simpl. apply String.eqb_refl.
Qed.

(** C7. For a non-empty result of N records under a descriptor whose path is
    the DHCP-lease path, K of them having [status == "bound"], the output of
    [format_response] is the header line stating K, the rule, and then the
    blocks of all N records in their original order. *)
Theorem lease_header_states_bound_count :
  forall (d : pydict) (items : list record) (K : nat),
    dict_get "cmd" d = Some (PStr "/ip/dhcp-server/lease") ->
    items <> [] ->
    bound_count items = K ->
    format_response (RList items) (Some d)
    = ("### 💡 Found " ++ str_of_nat K ++ " active client(s) online." ++ rule)
        ++ listing items.
Proof.
  intros d items K Hcmd Hne HK.
  destruct items as [|r items]; [congruence|].
  unfold format_response.
  rewrite (has_path_nonempty d lease_path Hcmd).
  rewrite fold_blocks, active_leases_count, HK.
  reflexivity.
Qed.

Lemma lease_header_states_bound_count_witness :
  format_response (RList three_leases) (Some lease_descriptor)
  = ("### 💡 Found " ++ str_of_nat 2 ++ " active client(s) online." ++ rule)
      ++ listing three_leases.
Proof.
  apply (lease_header_states_bound_count lease_descriptor three_leases 2).
  - reflexivity.
  - discriminate.
  - reflexivity.
Defined.

(** C8, as the claim has it: the plain line [Mac Address: AA:BB] is a line of
    the formatted record.  It is not, and neither is [Status: bound]: the
    text does not even occur inside a line. *)
Lemma plain_label_lines_absent :
  let out := format_response (RList [mac_record]) None in
  ~ In "Mac Address: AA:BB" (split_on "010" out)
  /\ ~ In "Status: bound" (split_on "010" out)
  /\ contains "Mac Address: AA:BB" out = false
  /\ contains "Status: bound" out = false.
Proof.
  cbv zeta. repeat split; try (vm_compute; reflexivity);
    vm_compute; intro H;
    repeat (destruct H as [H|H]; [discriminate H|]); exact H.
Qed.

(** C8, amended.  The record of the claim formats, under every descriptor, to
    a block holding the Markdown lines for the two fields, and in general
    the block of a record is one line per field in the record's field order,
    a list item with the label in bold (hyphens replaced by spaces, then
    title-cased) and the value in backticks, followed by the rule; the
    header, if any, comes before it. *)
Theorem fields_render_as_markdown_lines :
  (forall command_info : option pydict,
      let out := format_response (RList [mac_record]) command_info in
      In ("- **Mac Address**: " ++ backtick ++ "AA:BB" ++ backtick)
         (split_on "010" out)
      /\ In ("- **Status**: " ++ backtick ++ "bound" ++ backtick)
            (split_on "010" out))
  /\ (forall (r : record) (command_info : option pydict),
         format_response (RList [r]) command_info
         = (if descriptor_has_path command_info lease_path
            then count_header (bound_count [r]) else "")
             ++ join nl
                    (map (fun kv =>
                          "- **" ++ title (replace "-" " " (fst kv)) ++ "**: "
                            ++ backtick ++ scalar_str (snd kv) ++ backtick) r)
             ++ rule).
Proof.
  split.
  - intro command_info. cbv zeta. unfold format_response, mac_record.
    destruct (descriptor_has_path command_info lease_path).
    + split; vm_compute; tauto.
    + split; vm_compute; tauto.
  - intros r command_info. unfold format_response.
    rewrite fold_blocks, active_leases_count.
    cbn [listing]. rewrite append_empty_r. reflexivity.
Qed.

(** C9. An empty result formats to the one fixed message whatever the
    descriptor is, and a string passes through unchanged. *)
Theorem empty_and_string_responses :
  (forall command_info : option pydict,
      format_response (RList []) command_info
      = "No results found or command executed successfully.")
  /\ (forall (s : string) (command_info : option pydict),
         format_response (RStr s) command_info = s).
Proof.
  split; intros; reflexivity.
Qed.

End FormatterProps.

(** ** Properties of execute_command *)

Module ExecutorProps.
Import PyStr Executor Samples.

Lemma get_some_not_falsy (d : pydict) (v : pyval) :
  dict_get "cmd" d = Some v -> falsy (Some d) = false.
Proof. destruct d; [discriminate | reflexivity]. Qed.

(** The body of the [try] on a path that is not the reboot path. *)
Lemma execute_command_query (api : router_api) (d : pydict) (v : pyval) :
  dict_get "cmd" d = Some v ->
  pyval_eq_str v reboot_path = false ->
  execute_command api (Some d)
  = try_except
      (res <- lift (CallGetResource v) (get_resource api v) ;;
       kwargs <- unpack_kwargs (dict_get_default "params" (PDict []) d) ;;
       result <- lift (CallGet v kwargs) (resource_get res kwargs) ;;
       ret (RList result))
      (fun e => ret (RStr (error_prefix ++ exn_str e))).
Proof.
  intros Hcmd Hnot. unfold execute_command.
  rewrite (get_some_not_falsy d v Hcmd), Hcmd.
  cbn [bind ret app]. rewrite Hnot.
  match goal with |- (let (_, _) := ?m in _) = _ => now destruct m end.
Qed.

(** C1. A descriptor whose path is the reboot path, whatever else it holds,
    makes no call on the connection and gets the fixed advisory string. *)
Theorem reboot_is_never_executed :
  forall (api : router_api) (d : pydict),
    dict_get "cmd" d = Some (PStr "/system/reboot") ->
    execute_command api (Some d)
    = ([], Return (RStr "Reboot command received. Please use the 'System Controls' section in the sidebar to confirm the reboot.")).
Proof.
  intros api d Hcmd. unfold execute_command.
  rewrite (get_some_not_falsy d _ Hcmd), Hcmd. reflexivity.
Qed.

Lemma reboot_is_never_executed_witness :
  execute_command (api_returning three_leases) (Some reboot_with_params)
  = ([], Return (RStr "Reboot command received. Please use the 'System Controls' section in the sidebar to confirm the reboot.")).
Proof.
  apply (reboot_is_never_executed (api_returning three_leases) reboot_with_params).
  reflexivity.
Defined.

(** C3, as the claim has it: every valid descriptor with non-empty params
    issues one query.  The reboot descriptor with a parameter is valid and
    issues none. *)
Lemma valid_reboot_descriptor_issues_no_query :
  valid_descriptor reboot_with_params = true
  /\ dict_get "params" reboot_with_params = Some (PDict [("delay", PStr "5s")])
  /\ queries (fst (execute_command (api_returning three_leases)
                     (Some reboot_with_params))) = []
  /\ snd (execute_command (api_returning three_leases) (Some reboot_with_params))
     <> Return (RList three_leases).
Proof.
  repeat split; try reflexivity. vm_compute. discriminate.
Qed.

(** C3, amended.  For a descriptor with a string path other than the reboot
    path and a mapping as params, on a connection that hands out the resource
    of the path, [execute_command] makes one query call, on that path with
    those params, and returns the records of the query as they are. *)
Theorem one_query_passed_through :
  forall (api : router_api) (d : pydict) (path : string) (params : pydict)
         (res : resource),
    dict_get "cmd" d = Some (PStr path) ->
    path <> "/system/reboot" ->
    dict_get "params" d = Some (PDict params) ->
    get_resource api (PStr path) = Return res ->
    fst (execute_command api (Some d))
    = [CallGetResource (PStr path); CallGet (PStr path) params]
    /\ queries (fst (execute_command api (Some d))) = [(PStr path, params)]
    /\ (forall recs : list record,
           resource_get res params = Return recs ->
           snd (execute_command api (Some d)) = Return (RList recs)).
Proof.
  intros api d path params res Hcmd Hpath Hparams Hres.
  assert (Hnot : pyval_eq_str (PStr path) reboot_path = false)
    by (apply String.eqb_neq; exact Hpath).
  rewrite (execute_command_query api d _ Hcmd Hnot).
  unfold dict_get_default. rewrite Hparams, Hres. cbn.
  destruct (resource_get res params) as [recs|e]; cbn; repeat split.
  - intros recs' H. congruence.
  - intros recs' H. discriminate.
Qed.

Lemma one_query_passed_through_witness :
  fst (execute_command (api_returning three_leases) (Some interface_query))
  = [CallGetResource (PStr "/interface");
     CallGet (PStr "/interface") [("name", PStr "ether1")]]
  /\ queries (fst (execute_command (api_returning three_leases)
                     (Some interface_query)))
     = [(PStr "/interface", [("name", PStr "ether1")])]
  /\ (forall recs : list record,
         Return three_leases = Return recs ->
         snd (execute_command (api_returning three_leases) (Some interface_query))
         = Return (RList recs)).
Proof.
  apply (one_query_passed_through (api_returning three_leases) interface_query
           "/interface" [("name", PStr "ether1")]
           {| resource_get := fun _ => Return three_leases |}).
  - reflexivity.
  - discriminate.
  - reflexivity.
  - reflexivity.
Defined.

(** On a path other than the reboot path [execute_command] returns, whatever
    the connection does. *)
Lemma execute_command_returns (api : router_api) (d : pydict) (v : pyval) :
  dict_get "cmd" d = Some v ->
  pyval_eq_str v reboot_path = false ->
  exists (log : list call) (r : response),
    execute_command api (Some d) = (log, Return r).
Proof.
  intros Hcmd Hnot. rewrite (execute_command_query api d v Hcmd Hnot).
  destruct (get_resource api v) as [res|e]; cbn; [|eauto].
  unfold dict_get_default.
  destruct (dict_get "params" d) as [[]|]; cbn; eauto;
    match goal with
    | |- context [resource_get ?r ?k] => destruct (resource_get r k); cbn; eauto
    end.
Qed.

(** C6. Under a descriptor whose path is not the reboot path, a failure of
    the resource query, raised when the connection is asked for the resource
    or by the query itself, is caught: the result is the error string that
    ends with the failure's description, and in no case does
    [execute_command] raise. *)
Theorem query_failure_becomes_error_string :
  forall (api : router_api) (d : pydict) (v : pyval),
    dict_get "cmd" d = Some v ->
    pyval_eq_str v "/system/reboot" = false ->
    (forall e : exn,
        get_resource api v = Raise e ->
        execute_command api (Some d)
        = ([CallGetResource v],
           Return (RStr ("An error occurred while executing the command: "
                           ++ exn_str e))))
    /\ (forall (res : resource) (kwargs : pydict) (e : exn),
           get_resource api v = Return res ->
           dict_get_default "params" (PDict []) d = PDict kwargs ->
           resource_get res kwargs = Raise e ->
           execute_command api (Some d)
           = ([CallGetResource v; CallGet v kwargs],
              Return (RStr ("An error occurred while executing the command: "
                              ++ exn_str e))))
    /\ (exists (log : list call) (r : response),
           execute_command api (Some d) = (log, Return r)).
Proof.
  intros api d v Hcmd Hnot. repeat split.
  - intros e He. rewrite (execute_command_query api d v Hcmd Hnot), He.
    reflexivity.
  - intros res kwargs e Hres Hparams He.
    rewrite (execute_command_query api d v Hcmd Hnot), Hres.
    rewrite Hparams. cbn. rewrite He. reflexivity.
  - exact (execute_command_returns api d v Hcmd Hnot).
Qed.

Lemma query_failure_becomes_error_string_witness :
  execute_command (api_failing (Exn "RouterOsApiCommunicationError" "no such command"))
    (Some interface_query)
  = ([CallGetResource (PStr "/interface");
      CallGet (PStr "/interface") [("name", PStr "ether1")]],
     Return (RStr ("An error occurred while executing the command: "
                     ++ "no such command"))).
Proof.
  refine (proj1 (proj2 (query_failure_becomes_error_string
                          (api_failing (Exn "RouterOsApiCommunicationError" "no such command"))
                          interface_query (PStr "/interface") _ _))
                {| resource_get := fun _ => Raise (Exn "RouterOsApiCommunicationError" "no such command") |}
                [("name", PStr "ether1")]
                (Exn "RouterOsApiCommunicationError" "no such command") _ _ _);
    reflexivity.
Defined.

(** C10, as the claim has it: every descriptor mapping that is present and
    lacks [cmd] makes [execute_command] raise.  The empty mapping is present
    and lacks [cmd], and gets the advisory string of an absent descriptor. *)
Lemma empty_descriptor_gets_advisory :
  dict_get "cmd" ([] : pydict) = None
  /\ execute_command (api_returning three_leases) (Some [])
     = ([], Return (RStr "The AI could not determine a valid command for your request. Please try rephrasing it.")).
Proof.
  split; reflexivity.
Qed.

(** C10, amended.  The [cmd] lookup stands before the [try]: a descriptor
    mapping that is not empty and lacks [cmd] makes [execute_command] raise
    [KeyError] before any call is made.  A missing [params] is tolerated: the
    query is made with the empty mapping. *)
Theorem missing_cmd_raises_key_error :
  (forall (api : router_api) (d : pydict),
      d <> [] ->
      dict_get "cmd" d = None ->
      execute_command api (Some d) = ([], Raise (Exn "KeyError" "'cmd'")))
  /\ (forall (api : router_api) (d : pydict) (v : pyval) (res : resource),
         dict_get "cmd" d = Some v ->
         pyval_eq_str v "/system/reboot" = false ->
         dict_get "params" d = None ->
         get_resource api v = Return res ->
         execute_command api (Some d)
         = ([CallGetResource v; CallGet v []],
            match resource_get res [] with
            | Return recs => Return (RList recs)
            | Raise e =>
                Return (RStr ("An error occurred while executing the command: "
                                ++ exn_str e))
            end)).
Proof.
  split.
  - intros api d Hne Hcmd. unfold execute_command.
    destruct d as [|kv d]; [congruence|].
    cbn [falsy]. rewrite Hcmd. reflexivity.
  - intros api d v res Hcmd Hnot Hparams Hres.
    rewrite (execute_command_query api d v Hcmd Hnot).
    unfold dict_get_default. rewrite Hparams, Hres.
    cbn. destruct (resource_get res []); reflexivity.
Qed.

Lemma missing_cmd_raises_key_error_witness :
  execute_command (api_returning three_leases) (Some [("params", PDict [])])
  = ([], Raise (Exn "KeyError" "'cmd'"))
  /\ execute_command (api_returning three_leases) (Some [("cmd", PStr "/log")])
     = ([CallGetResource (PStr "/log"); CallGet (PStr "/log") []],
        Return (RList three_leases)).
Proof.
  split.
  - apply (proj1 missing_cmd_raises_key_error
             (api_returning three_leases) [("params", PDict [])]).
    + discriminate.
    + reflexivity.
  - apply (proj2 missing_cmd_raises_key_error
             (api_returning three_leases) [("cmd", PStr "/log")] (PStr "/log")
             {| resource_get := fun _ => Return three_leases |});
      reflexivity.
Defined.

End ExecutorProps.

(** ** Properties of the JSON decoder *)

Module JsonProps.
Import PyStr Json.

Lemma skip_ws_length (s : string) :
  String.length (skip_ws s) <= String.length s.
Proof.
  induction s as [|c s IH]; simpl; [lia|].
  destruct (is_ws c); simpl; lia.
Qed.

Lemma span_digits_length (s : string) :
  String.length (snd (span_digits s)) <= String.length s.
Proof.
  induction s as [|c s IH]; simpl; [lia|].
  destruct (is_digit c); simpl; [|lia].
  destruct (span_digits s); simpl in *; lia.
Qed.

Lemma strip_prefix_length (p s r : string) :
  strip_prefix p s = Some r ->
  String.length r + String.length p = String.length s.
Proof.
  revert s; induction p as [|a p IH]; intros s; simpl.
  - intro H; injection H as ->; lia.
  - destruct s as [|b s]; [discriminate|].
    destruct (Ascii.eqb a b); [|discriminate].
    intro H. apply IH in H. simpl. lia.
Qed.

Lemma cons_unit_consumes (u : unit_) (p : parse (list unit_)) (s t : string) :
  consumes p s -> String.length s <= String.length t ->
  consumes (cons_unit u p) t.
Proof. destruct p; simpl; intros; try tauto; lia. Qed.

(** The string scanner stops, and past the closing quote. *)
Lemma scan_units_consumes (s : string) : consumes (scan_units s) s.
Proof.
  remember (String.length s) as n eqn:Hn.
  revert s Hn. induction n as [n IH] using lt_wf_ind. intros s Hn.
  destruct s as [|c rest]; [exact I|].
  cbn [scan_units].
  destruct (Ascii.eqb c "034"); [simpl; lia|].
  destruct (Ascii.eqb c "\").
  - destruct rest as [|e rest1]; [exact I|].
    destruct (Ascii.eqb e "u").
    + destruct rest1 as [|h1 [|h2 [|h3 [|h4 rest2]]]]; try exact I.
      destruct (hex4 h1 h2 h3 h4); [|exact I].
      apply (cons_unit_consumes _ _ rest2); [|simpl; lia].
      apply (IH (String.length rest2)); [subst n; simpl; lia | reflexivity].
    + destruct (simple_escape e); [|exact I].
      apply (cons_unit_consumes _ _ rest1); [|simpl; lia].
      apply (IH (String.length rest1)); [subst n; simpl; lia | reflexivity].
  - destruct (nat_of_ascii c <? 32)%nat; [exact I|].
    apply (cons_unit_consumes _ _ rest); [|simpl; lia].
    apply (IH (String.length rest)); [subst n; simpl; lia | reflexivity].
Qed.

Lemma scanstring_consumes (s : string) : consumes (scanstring s) s.
Proof.
  unfold scanstring. pose proof (scan_units_consumes s) as H.
  destruct (scan_units s); exact H.
Qed.

Lemma match_integer_length (s lexeme r : string) :
  match_integer s = Some (lexeme, r) -> String.length r < String.length s.
Proof.
  unfold match_integer.
  assert (Hbody : forall sign body,
             match body with
             | String c r0 =>
                 if Ascii.eqb c "0" then Some (sign ++ "0", r0)
                 else if is_digit c then
                        let (ds, r') := span_digits body in Some (sign ++ ds, r')
                      else None
             | EmptyString => None
             end = Some (lexeme, r) ->
             String.length r < String.length body).
  { intros sign [|c r0]; [discriminate|].
    destruct (Ascii.eqb c "0").
    - intro H; injection H as _ ->. simpl; lia.
    - destruct (is_digit c) eqn:Hd; [|discriminate].
      pose proof (span_digits_length r0) as Hr.
      simpl. rewrite Hd. destruct (span_digits r0) as [ds r']; simpl in Hr.
      intro H; injection H as _ <-. lia. }
  destruct s as [|c r0]; [discriminate|].
  destruct (Ascii.eqb c "-").
  - intro H. apply (Hbody "-" r0) in H. simpl. lia.
  - intro H. apply (Hbody "" (String c r0)) in H. exact H.
Qed.

Lemma match_frac_length (s : string) :
  String.length (snd (match_frac s)) <= String.length s.
Proof.
  unfold match_frac. destruct s as [|c r]; [simpl; lia|].
  destruct (Ascii.eqb c "."); [|simpl; lia].
  pose proof (span_digits_length r) as H.
  destruct (span_digits r) as [[|d ds] r']; simpl in *; lia.
Qed.

Lemma match_exp_length (s : string) :
  String.length (snd (match_exp s)) <= String.length s.
Proof.
  unfold match_exp. destruct s as [|e r]; [simpl; lia|].
  destruct (Ascii.eqb e "e" || Ascii.eqb e "E"); [|simpl; lia].
  assert (H : forall sign r1, String.length r1 <= String.length r ->
             String.length
               (snd (match span_digits r1 with
                     | (EmptyString, _) => ("", String e r)
                     | (ds, r') => (String e sign ++ ds, r')
                     end)) <= String.length (String e r)).
  { intros sign r1 Hr1. pose proof (span_digits_length r1) as H.
    destruct (span_digits r1) as [[|d ds] r']; simpl in *; lia. }
  destruct r as [|g r2].
  - apply H. lia.
  - destruct (Ascii.eqb g "-" || Ascii.eqb g "+"); apply H; simpl; lia.
Qed.

Lemma scan_number_length (s : string) (v : pyval) (r : string) :
  scan_number s = Some (v, r) -> String.length r < String.length s.
Proof.
  unfold scan_number.
  destruct (match_integer s) as [[integer r0]|] eqn:Hi; [|discriminate].
  apply match_integer_length in Hi.
  pose proof (match_frac_length r0) as Hf.
  destruct (match_frac r0) as [frac r1]; simpl in Hf.
  pose proof (match_exp_length r1) as He.
  destruct (match_exp r1) as [exp r2]; simpl in He.
  destruct frac, exp; intro H; injection H as _ <-; lia.
Qed.

Lemma scan_scalar_consumes (s : string) : consumes (scan_scalar s) s.
Proof.
  unfold scan_scalar.
  repeat match goal with
         | |- context [strip_prefix ?p s] =>
             let H := fresh "H" in
             destruct (strip_prefix p s) eqn:H;
             [apply strip_prefix_length in H; simpl in *; lia|]
         | |- context [scan_number s] =>
             let H := fresh "H" in
             destruct (scan_number s) as [[? ?]|] eqn:H;
             [apply scan_number_length in H; simpl; lia|]
         end.
  exact I.
Qed.

Section Containers.
Variable scan : string -> parse pyval.
Variable bound : nat.
Hypothesis scan_consumes :
  forall s : string, String.length s < bound -> consumes (scan s) s.

Lemma object_pairs_consumes (fuel : nat) :
  forall (s : string) (pairs : list (string * pyval)),
    String.length s < fuel -> String.length s <= bound ->
    consumes (object_pairs scan fuel s pairs) s.
Proof.
  induction fuel as [|fuel IH]; intros s pairs Hfuel Hbound; [lia|].
  cbn [object_pairs].
  pose proof (scanstring_consumes s) as Hkey.
  destruct (scanstring s) as [key r| |]; [|exact I|exact Hkey].
  simpl in Hkey.
  pose proof (skip_ws_length r) as Hr.
  destruct (skip_ws r) as [|colon r1]; [exact I|].
  destruct (Ascii.eqb colon ":"); [|exact I].
  simpl in Hr.
  pose proof (skip_ws_length r1) as Hr1.
  assert (Hlt : String.length (skip_ws r1) < bound) by lia.
  pose proof (scan_consumes _ Hlt) as Hval.
  destruct (scan (skip_ws r1)) as [value r2| |]; [|exact I|exact Hval].
  simpl in Hval. cbv zeta.
  pose proof (skip_ws_length r2) as Hr2.
  destruct (skip_ws r2) as [|c r3]; [exact I|].
  simpl in Hr2.
  destruct (Ascii.eqb c "}"); [simpl; lia|].
  destruct (Ascii.eqb c ","); [|exact I].
  pose proof (skip_ws_length r3) as Hr3.
  destruct (skip_ws r3) as [|q r4]; [exact I|].
  simpl in Hr3.
  destruct (Ascii.eqb q "034"); [|exact I].
  assert (H4 : String.length r4 < fuel) by lia.
  assert (H4' : String.length r4 <= bound) by lia.
  pose proof (IH r4 (pairs ++ [(key, value)])%list H4 H4') as Hrec.
  destruct (object_pairs scan fuel r4 _); simpl in *; try tauto; lia.
Qed.

Lemma array_items_consumes (fuel : nat) :
  forall (s : string) (values : list pyval),
    String.length s < fuel -> String.length s < bound ->
    consumes (array_items scan fuel s values) s.
Proof.
  induction fuel as [|fuel IH]; intros s values Hfuel Hbound; [lia|].
  cbn [array_items].
  pose proof (scan_consumes _ Hbound) as Hval.
  destruct (scan s) as [value r| |]; [|exact I|exact Hval].
  simpl in Hval. cbv zeta.
  pose proof (skip_ws_length r) as Hr.
  destruct (skip_ws r) as [|c r1]; [exact I|].
  simpl in Hr.
  destruct (Ascii.eqb c "]"); [simpl; lia|].
  destruct (Ascii.eqb c ","); [|exact I].
  pose proof (skip_ws_length r1) as Hr1.
  assert (H1 : String.length (skip_ws r1) < fuel) by lia.
  assert (H1' : String.length (skip_ws r1) < bound) by lia.
  pose proof (IH _ (values ++ [value])%list H1 H1') as Hrec.
  destruct (array_items scan fuel (skip_ws r1) _); simpl in *; try tauto; lia.
Qed.

End Containers.

(** With more fuel than characters the scanner never runs out of fuel, and a
    value it returns used up some of the text. *)
Lemma scan_once_consumes (fuel : nat) :
  forall s : string, String.length s < fuel -> consumes (scan_once fuel s) s.
Proof.
  induction fuel as [|fuel IH]; intros s Hfuel; [lia|].
  cbn [scan_once].
  destruct s as [|c rest]; [exact I|].
  simpl in Hfuel.
  destruct (Ascii.eqb c "034").
  { pose proof (scanstring_consumes rest) as H.
    destruct (scanstring rest); simpl in *; try tauto; lia. }
  destruct (Ascii.eqb c "{").
  { unfold scan_object.
    pose proof (skip_ws_length rest) as Hr.
    destruct (skip_ws rest) as [|c1 r]; [exact I|].
    simpl in Hr.
    destruct (Ascii.eqb c1 "}"); [simpl; lia|].
    destruct (Ascii.eqb c1 "034"); [|exact I].
    assert (H1 : String.length r < fuel) by lia.
    assert (H2 : String.length r <= fuel) by lia.
    pose proof (object_pairs_consumes (scan_once fuel) fuel IH fuel r [] H1 H2) as H.
    destruct (object_pairs (scan_once fuel) fuel r []); simpl in *; try tauto; lia. }
  destruct (Ascii.eqb c "[").
  { unfold scan_array.
    pose proof (skip_ws_length rest) as Hr.
    destruct (skip_ws rest) as [|c1 r] eqn:E; [exact I|].
    simpl in Hr.
    destruct (Ascii.eqb c1 "]"); [simpl; lia|].
    assert (H1 : String.length (String c1 r) < fuel) by (simpl; lia).
    pose proof (array_items_consumes (scan_once fuel) fuel IH fuel _ [] H1 H1) as H.
    destruct (array_items (scan_once fuel) fuel (String c1 r) []);
      simpl in *; try tauto; lia. }
  apply scan_scalar_consumes.
Qed.

(** [json_loads] always has enough fuel: it returns a value or the decode
    error. *)
Lemma json_loads_total (s : string) :
  (exists v : pyval, json_loads s = Loaded v) \/ json_loads s = JSONDecodeError.
Proof.
  unfold json_loads.
  assert (H : String.length (skip_ws s) < S (String.length s))
    by (pose proof (skip_ws_length s); lia).
  apply scan_once_consumes in H.
  destruct (scan_once (S (String.length s)) (skip_ws s)) as [v rest| |].
  - destruct (skip_ws rest); eauto.
  - now right.
  - destruct H.
Qed.

End JsonProps.

(** ** Properties of get_ai_response *)

Module TranslatorProps.
Import PyStr Json Translator Samples.

Lemma from_first_skips (c : ascii) (pre rest : string) :
  from_first c pre = None ->
  from_first c (pre ++ String c rest) = Some (String c rest).
Proof.
  induction pre as [|a pre IH]; simpl.
  - intros _. now rewrite Ascii.eqb_refl.
  - destruct (Ascii.eqb a c); [discriminate | exact IH].
Qed.

Lemma upto_last_reaches (c : ascii) (body post : string) :
  upto_last c post = None ->
  upto_last c (body ++ String c post) = Some (body ++ String c "").
Proof.
  intro Hpost. induction body as [|a body IH]; simpl.
  - now rewrite Hpost, Ascii.eqb_refl.
  - now rewrite IH.
Qed.

(** The match of the pattern runs from the first opening brace of the text
    to its last closing brace. *)
Lemma re_search_braces_span (pre body post : string) :
  from_first "{" pre = None ->
  upto_last "}" post = None ->
  re_search_braces (pre ++ "{" ++ body ++ "}" ++ post)
  = Some ("{" ++ body ++ "}").
Proof.
  intros Hpre Hpost. unfold re_search_braces.
  change ("{" ++ body ++ "}" ++ post) with (String "{" (body ++ String "}" post)).
  rewrite (from_first_skips _ _ _ Hpre), (upto_last_reaches _ _ _ Hpost).
  reflexivity.
Qed.

(** The handler of [Exception] returns no descriptor. *)
Lemma on_exception_absent (e : exn) : snd (on_exception e) = None.
Proof. reflexivity. Qed.

(** [validate] returns the dict it is given, and only when it has the shape. *)
Lemma validate_some (v : pyval) (d : pydict) :
  snd (validate v) = Some d -> v = PDict d /\ well_shaped v = true.
Proof.
  destruct v as [| b | z | f | s | l | d']; cbn; try discriminate.
  - destruct (contains "cmd" s); discriminate.
  - destruct (list_has_str "cmd" l); discriminate.
  - destruct (dict_get "cmd" d') as [c|]; cbn; [|discriminate].
    destruct (dict_get "params" d') as [[]|]; cbn; try discriminate.
    intro H; injection H as ->. split; reflexivity.
Qed.

Lemma validate_ill_shaped (v : pyval) :
  well_shaped v = false -> snd (validate v) = None.
Proof.
  intro H. destruct (snd (validate v)) as [d|] eqn:E; [|reflexivity].
  apply validate_some in E. destruct E as [_ E]. congruence.
Qed.

(** [get_ai_response] once the key is set, the model is set up and the
    service has replied [text]. *)
Lemma get_ai_response_reply (ai : genai) (user_input api_key text : string) :
  api_key <> "" ->
  configure ai api_key = None ->
  generate_content ai api_key (full_prompt user_input) = Return text ->
  get_ai_response ai user_input api_key
  = match re_search_braces text with
    | None => ([StError msg_no_object; Print ("AI Raw Response: " ++ text)], None)
    | Some command_str =>
        match json_loads command_str with
        | Loaded command_info => validate command_info
        | JSONDecodeError =>
            ([StError msg_parse;
              Print ("AI Raw Response (failed to parse): " ++ text)], None)
        | RecursionError =>
            on_exception (Exn "RecursionError" "maximum recursion depth exceeded")
        end
    end.
Proof.
  intros Hkey Hconf Hgen. unfold get_ai_response.
  apply String.eqb_neq in Hkey. rewrite Hkey, Hconf, Hgen. reflexivity.
Qed.

(** C2, as the claim has it: of several JSON-object-shaped substrings the
    first is extracted and parsed.  In a reply that holds two command
    objects, each of which parses on its own, the match runs from the first
    opening brace to the last closing brace, does not parse, and no
    descriptor is returned. *)
Lemma two_objects_reply_is_rejected :
  json_loads resource_object
  = Loaded (PDict [("cmd", PStr "/system/resource"); ("params", PDict [])])
  /\ json_loads log_object
     = Loaded (PDict [("cmd", PStr "/log"); ("params", PDict [])])
  /\ re_search_braces two_objects_reply
     = Some (resource_object ++ " or " ++ log_object)
  /\ snd (get_ai_response (ai_replying two_objects_reply) "uptime or log" "key")
     = None
  /\ snd (get_ai_response (ai_replying two_objects_reply) "uptime or log" "key")
     <> Some [("cmd", PStr "/system/resource"); ("params", PDict [])].
Proof.
  repeat split; try (vm_compute; reflexivity).
  vm_compute. discriminate.
Qed.

(** C2, amended.  The translator takes the one span of the reply that runs
    from its first opening brace to its last closing brace and parses that
    span as a whole; what it returns is decided by that parse.  For the
    reply of the spec's example the span is the command object, and its
    descriptor is returned. *)
Theorem first_brace_to_last_brace :
  (forall user_input api_key : string,
      api_key <> "" ->
      snd (get_ai_response (ai_replying sure_reply) user_input api_key)
      = Some [("cmd", PStr "/system/resource"); ("params", PDict [])])
  /\ (forall (ai : genai) (user_input api_key pre body post : string),
         api_key <> "" ->
         configure ai api_key = None ->
         generate_content ai api_key (full_prompt user_input)
         = Return (pre ++ "{" ++ body ++ "}" ++ post) ->
         from_first "{" pre = None ->
         upto_last "}" post = None ->
         snd (get_ai_response ai user_input api_key)
         = match json_loads ("{" ++ body ++ "}") with
           | Loaded command_info => snd (validate command_info)
           | _ => None
           end).
Proof.
  split.
  - intros user_input api_key Hkey.
    rewrite (get_ai_response_reply (ai_replying sure_reply) user_input api_key
               sure_reply Hkey eq_refl eq_refl).
    vm_compute. reflexivity.
  - intros ai user_input api_key pre body post Hkey Hconf Hgen Hpre Hpost.
    rewrite (get_ai_response_reply _ _ _ _ Hkey Hconf Hgen).
    rewrite (re_search_braces_span pre body post Hpre Hpost).
    destruct (json_loads ("{" ++ body ++ "}")); reflexivity.
Qed.

Lemma first_brace_to_last_brace_witness :
  snd (get_ai_response (ai_replying sure_reply) "what is the router uptime?" "key")
  = Some [("cmd", PStr "/system/resource"); ("params", PDict [])]
  /\ snd (get_ai_response (ai_replying two_objects_reply) "uptime or log" "key")
     = match json_loads (resource_object ++ " or " ++ log_object) with
       | Loaded command_info => snd (validate command_info)
       | _ => None
       end.
Proof.
  split.
  - apply (proj1 first_brace_to_last_brace). discriminate.
  - apply (proj2 first_brace_to_last_brace (ai_replying two_objects_reply)
             "uptime or log" "key" "Either "
             (dq ++ "cmd" ++ dq ++ ": " ++ dq ++ "/system/resource" ++ dq ++ ", "
                 ++ dq ++ "params" ++ dq ++ ": {}} or "
                 ++ "{" ++ dq ++ "cmd" ++ dq ++ ": " ++ dq ++ "/log" ++ dq ++ ", "
                 ++ dq ++ "params" ++ dq ++ ": {}")
             ".").
    + discriminate.
    + reflexivity.
    + reflexivity.
    + reflexivity.
    + reflexivity.
Defined.

(** C4, as the claim has it: the [cmd] of a returned descriptor is a
    non-empty string.  A reply whose [cmd] is the empty string is returned
    as a descriptor. *)
Lemma empty_cmd_is_returned :
  snd (get_ai_response (ai_replying empty_cmd_object) "do nothing" "key")
  = Some [("cmd", PStr ""); ("params", PDict [])]
  /\ valid_descriptor [("cmd", PStr ""); ("params", PDict [])] = false.
Proof.
  split; vm_compute; reflexivity.
Qed.

(** C4, amended.  A descriptor returned by [get_ai_response] has the key
    [cmd], whatever value stands under it, and a mapping under [params]. *)
Theorem returned_descriptor_shape :
  forall (ai : genai) (user_input api_key : string) (d : pydict),
    snd (get_ai_response ai user_input api_key) = Some d ->
    (exists v : pyval, dict_get "cmd" d = Some v)
    /\ (exists params : pydict, dict_get "params" d = Some (PDict params)).
Proof.
  intros ai user_input api_key d. unfold get_ai_response.
  destruct (String.eqb api_key ""); [discriminate|].
  destruct (configure ai api_key); [discriminate|].
  destruct (generate_content ai api_key (full_prompt user_input)) as [text|e];
    [|discriminate].
  destruct (re_search_braces text) as [command_str|]; [|discriminate].
  destruct (json_loads command_str) as [v| |]; try discriminate.
  intro H. apply validate_some in H. destruct H as [-> H].
  unfold well_shaped in H.
  destruct (dict_get "cmd" d) as [c|]; [|discriminate].
  destruct (dict_get "params" d) as [[]|]; try discriminate.
  split; eauto.
Qed.

Lemma returned_descriptor_shape_witness :
  (exists v : pyval,
      dict_get "cmd" [("cmd", PStr "/system/resource"); ("params", PDict [])]
      = Some v)
  /\ (exists params : pydict,
         dict_get "params" [("cmd", PStr "/system/resource"); ("params", PDict [])]
         = Some (PDict params)).
Proof.
  apply (returned_descriptor_shape (ai_replying sure_reply)
           "what is the router uptime?" "key").
  vm_compute. reflexivity.
Defined.

(** C5. On every error path [get_ai_response] returns no descriptor. *)
Theorem error_paths_return_absence :
  forall (ai : genai) (user_input api_key : string),
    error_path ai user_input api_key ->
    snd (get_ai_response ai user_input api_key) = None.
Proof.
  intros ai user_input api_key H. unfold get_ai_response.
  destruct (String.eqb_spec api_key "") as [E|E]; [reflexivity|].
  destruct H as [H | e H | e H | text H Hre | text cs H Hre Hj | text cs v H Hre Hj Hv];
    try congruence.
  - rewrite H. reflexivity.
  - destruct (configure ai api_key); [reflexivity|]. rewrite H. reflexivity.
  - destruct (configure ai api_key); [reflexivity|]. rewrite H, Hre. reflexivity.
  - destruct (configure ai api_key); [reflexivity|]. rewrite H, Hre, Hj. reflexivity.
  - destruct (configure ai api_key); [reflexivity|]. rewrite H, Hre, Hj.
    exact (validate_ill_shaped v Hv).
Qed.

Lemma error_paths_return_absence_witness :
  snd (get_ai_response (ai_replying "I cannot help with that.") "sing a song" "key")
  = None.
Proof.
  apply (error_paths_return_absence (ai_replying "I cannot help with that.")
           "sing a song" "key").
  apply (NoObjectInReply _ _ _ "I cannot help with that."); reflexivity.
Defined.

End TranslatorProps.

(** ** Further properties of execute_command *)

Module ExecutorMore.
Import PyStr Executor Samples ExecutorProps.

(** [execute_command] returns whenever the descriptor has the key [cmd],
    the reboot path included. *)
Lemma execute_command_returns_with_cmd (api : router_api) (d : pydict) (v : pyval) :
  dict_get "cmd" d = Some v ->
  exists (log : list call) (r : response),
    execute_command api (Some d) = (log, Return r).
Proof.
  intro Hcmd. destruct (pyval_eq_str v reboot_path) eqn:Hr.
  - unfold execute_command.
    rewrite (get_some_not_falsy d v Hcmd), Hcmd. cbn [bind ret app].
    rewrite Hr. cbn. eauto.
  - exact (execute_command_returns api d v Hcmd Hr).
Qed.

(** X1. Whatever the connection and the descriptor are (absent, empty,
    without [cmd], with params of any kind), one invocation asks the
    connection for at most one resource and makes at most one query call. *)
Theorem at_most_one_query :
  forall (api : router_api) (command_info : option pydict),
    length (fst (execute_command api command_info)) <= 2
    /\ length (queries (fst (execute_command api command_info))) <= 1.
Proof.
  intros api [d|]; [|cbn; lia].
  destruct d as [|kv d]; [cbn; lia|].
  set (d' := kv :: d).
  destruct (dict_get "cmd" d') as [v|] eqn:Hcmd.
  - destruct (pyval_eq_str v reboot_path) eqn:Hr.
    + unfold execute_command. cbn [falsy d']. fold d'. rewrite Hcmd.
      cbn [bind ret app]. rewrite Hr. cbn. lia.
    + rewrite (execute_command_query api d' v Hcmd Hr).
      destruct (get_resource api v) as [res|e]; cbn; [|lia].
      unfold dict_get_default.
      destruct (dict_get "params" d') as [[]|]; cbn; try lia;
        match goal with
        | |- context [resource_get ?r ?k] => destruct (resource_get r k); cbn; lia
        end.
  - unfold execute_command. cbn [falsy d']. fold d'. rewrite Hcmd. cbn. lia.
Qed.

(** X2. When the value under [params] is not a mapping, the connection is
    asked for the resource but no query call is made, and the result is an
    error string with the usual prefix: the failure of the unpacking is
    caught like a failure of the router. *)
Theorem non_mapping_params_make_no_query :
  forall (api : router_api) (d : pydict) (v p : pyval) (res : resource),
    dict_get "cmd" d = Some v ->
    pyval_eq_str v "/system/reboot" = false ->
    dict_get "params" d = Some p ->
    (forall kwargs : pydict, p <> PDict kwargs) ->
    get_resource api v = Return res ->
    fst (execute_command api (Some d)) = [CallGetResource v]
    /\ queries (fst (execute_command api (Some d))) = []
    /\ exists description : string,
         snd (execute_command api (Some d))
         = Return (RStr ("An error occurred while executing the command: "
                           ++ description)).
Proof.
  intros api d v p res Hcmd Hr Hp Hnot Hres.
  rewrite (execute_command_query api d v Hcmd Hr).
  unfold dict_get_default. rewrite Hp, Hres.
  destruct p; cbn; try (repeat split; eauto; fail).
  exfalso. eapply Hnot. reflexivity.
Qed.

Lemma non_mapping_params_make_no_query_witness :
  fst (execute_command (api_returning three_leases)
         (Some [("cmd", PStr "/log"); ("params", PList [PStr "topics"])]))
  = [CallGetResource (PStr "/log")]
  /\ queries (fst (execute_command (api_returning three_leases)
                     (Some [("cmd", PStr "/log"); ("params", PList [PStr "topics"])])))
     = []
  /\ exists description : string,
       snd (execute_command (api_returning three_leases)
              (Some [("cmd", PStr "/log"); ("params", PList [PStr "topics"])]))
       = Return (RStr ("An error occurred while executing the command: "
                         ++ description)).
Proof.
  apply (non_mapping_params_make_no_query (api_returning three_leases)
           [("cmd", PStr "/log"); ("params", PList [PStr "topics"])]
           (PStr "/log") (PList [PStr "topics"])
           {| resource_get := fun _ => Return three_leases |}).
  - reflexivity.
  - reflexivity.
  - reflexivity.
  - intros kwargs H. discriminate H.
  - reflexivity.
Defined.

End ExecutorMore.

(** ** Further properties of format_response *)

Module FormatterMore.
Import PyStr Formatter Samples FormatterProps Session.

Lemma listing_app (a b : list record) :
  listing (a ++ b) = listing a ++ listing b.
Proof.
  induction a as [|r a IH]; cbn [app listing]; [reflexivity|].
  now rewrite IH, append_assoc.
Qed.

(** The output for a non-empty list, in one equation. *)
Lemma format_response_list (items : list record) (command_info : option pydict) :
  items <> [] ->
  format_response (RList items) command_info
  = (if descriptor_has_path command_info lease_path
     then count_header (bound_count items) else "")
      ++ listing items.
Proof.
  intro Hne. destruct items as [|r items]; [congruence|].
  unfold format_response. now rewrite fold_blocks, active_leases_count.
Qed.

(** X3. The count header is written for the DHCP-lease path only: under an
    absent or empty descriptor, a descriptor without [cmd] or one whose
    [cmd] is anything but the string [/ip/dhcp-server/lease], the output for
    a non-empty result is the blocks of the records and nothing before
    them. *)
Theorem no_header_without_lease_path :
  forall (items : list record) (command_info : option pydict),
    items <> [] ->
    match command_info with
    | Some d => dict_get "cmd" d <> Some (PStr "/ip/dhcp-server/lease")
    | None => True
    end ->
    format_response (RList items) command_info = listing items.
Proof.
  intros items command_info Hne Hd.
  rewrite (format_response_list items command_info Hne).
  replace (descriptor_has_path command_info lease_path) with false; [reflexivity|].
  destruct command_info as [[|kv d]|]; try reflexivity.
  unfold descriptor_has_path.
  destruct (dict_get "cmd" (kv :: d)) as [[| | | |s| |]|]; try reflexivity.
  cbn. destruct (String.eqb_spec s lease_path) as [->|]; [|reflexivity].
  exfalso. apply Hd. reflexivity.
Qed.

Lemma no_header_without_lease_path_witness :
  format_response (RList three_leases) (Some interface_query)
  = listing three_leases.
Proof.
  apply (no_header_without_lease_path three_leases (Some interface_query)).
  - discriminate.
  - discriminate.
Defined.

Lemma bound_count_app (a b : list record) :
  bound_count (a ++ b) = bound_count a + bound_count b.
Proof.
  induction a as [|r a IH]; cbn [app bound_count]; [reflexivity|].
  destruct (dict_get "status" r) as [[s| | |]|]; try exact IH.
  destruct (String.eqb s "bound"); [now rewrite IH | exact IH].
Qed.

(** X4. Formatting is compositional in the result: the records of two
    non-empty results, formatted as one result, give the listing of the
    first followed by the listing of the second, and under the lease path
    the header states the sum of the two counts. *)
Theorem format_of_concatenated_results :
  forall (a b : list record) (command_info : option pydict),
    a <> [] -> b <> [] ->
    format_response (RList (a ++ b)) command_info
    = (if descriptor_has_path command_info lease_path
       then count_header (length (active_leases a) + length (active_leases b))
       else "")
        ++ listing a ++ listing b.
Proof.
  intros a b command_info Ha Hb.
  assert (Hab : (a ++ b)%list <> []) by (destruct a; [congruence | discriminate]).
  rewrite (format_response_list _ command_info Hab).
  now rewrite bound_count_app, listing_app, !active_leases_count.
Qed.

Lemma format_of_concatenated_results_witness :
  format_response (RList ([mac_record] ++ three_leases)) (Some lease_descriptor)
  = (if descriptor_has_path (Some lease_descriptor) lease_path
     then count_header (length (active_leases [mac_record])
                        + length (active_leases three_leases))
     else "")
      ++ listing [mac_record] ++ listing three_leases.
Proof.
  apply (format_of_concatenated_results [mac_record] three_leases
           (Some lease_descriptor)); discriminate.
Defined.

Lemma replace_length (a b : ascii) (s : string) :
  String.length (replace a b s) = String.length s.
Proof. induction s as [|c s IH]; simpl; [reflexivity | now rewrite IH]. Qed.

Lemma title_from_length (cased : bool) (s : string) :
  String.length (title_from cased s) = String.length s.
Proof.
  revert cased; induction s as [|c s IH]; intro cased; simpl; [reflexivity|].
  destruct (is_lower c || is_upper c); simpl; now rewrite IH.
Qed.

Lemma replace_removes (a b : ascii) (s : string) :
  a <> b -> has_char a (replace a b s) = false.
Proof.
  intro Hab. induction s as [|c s IH]; simpl; [reflexivity|].
  rewrite IH, orb_false_r.
  destruct (Ascii.eqb_spec c a) as [->|Hc].
  - apply Ascii.eqb_neq. congruence.
  - apply Ascii.eqb_neq. exact Hc.
Qed.

Lemma to_upper_not_hyphen (c : ascii) : c <> "-"%char -> to_upper c <> "-"%char.
Proof.
  intro Hc. unfold to_upper, is_lower.
  destruct ((97 <=? nat_of_ascii c)%nat && (nat_of_ascii c <=? 122)%nat) eqn:E;
    [|exact Hc].
  apply andb_prop in E. destruct E as [E1 E2].
  apply Nat.leb_le in E1, E2.
  intro H. apply (f_equal nat_of_ascii) in H.
  rewrite nat_ascii_embedding in H by lia.
  change (nat_of_ascii "-") with 45 in H. lia.
Qed.

Lemma to_lower_not_hyphen (c : ascii) : c <> "-"%char -> to_lower c <> "-"%char.
Proof.
  intro Hc. unfold to_lower, is_upper.
  destruct ((65 <=? nat_of_ascii c)%nat && (nat_of_ascii c <=? 90)%nat) eqn:E;
    [|exact Hc].
  apply andb_prop in E. destruct E as [E1 E2].
  apply Nat.leb_le in E1, E2.
  intro H. apply (f_equal nat_of_ascii) in H.
  rewrite nat_ascii_embedding in H by lia.
  change (nat_of_ascii "-") with 45 in H. lia.
Qed.

Lemma title_from_keeps_no_hyphen (cased : bool) (s : string) :
  has_char "-" s = false -> has_char "-" (title_from cased s) = false.
Proof.
  revert cased; induction s as [|c s IH]; intro cased; simpl; [reflexivity|].
  intro H. apply orb_false_elim in H. destruct H as [Hc Hs].
  apply Ascii.eqb_neq in Hc.
  destruct (is_lower c || is_upper c); simpl; rewrite (IH _ Hs), orb_false_r;
    apply Ascii.eqb_neq.
  - destruct cased; [apply to_lower_not_hyphen | apply to_upper_not_hyphen];
      exact Hc.
  - exact Hc.
Qed.


End FormatterMore.

(** ** Further properties of get_ai_response *)

Module TranslatorMore.
Import PyStr Json Translator Samples Session JsonProps TranslatorProps.

Lemma from_first_split (c : ascii) (s t : string) :
  from_first c s = Some t ->
  exists pre rest : string,
    s = pre ++ t /\ t = String c rest /\ from_first c pre = None.
Proof.
  induction s as [|a s IH]; simpl; [discriminate|].
  destruct (Ascii.eqb_spec a c) as [->|Hne].
  - intro H; injection H as <-. exists "", s. repeat split.
  - intro H. destruct (IH H) as (pre & rest & -> & -> & Hpre).
    exists (String a pre), rest. repeat split. simpl.
    apply Ascii.eqb_neq in Hne. now rewrite Hne.
Qed.

Lemma upto_last_split (c : ascii) (s p : string) :
  upto_last c s = Some p ->
  exists body post : string,
    p = body ++ String c "" /\ s = p ++ post /\ upto_last c post = None.
Proof.
  revert p; induction s as [|a s IH]; intro p; simpl; [discriminate|].
  destruct (upto_last c s) as [q|] eqn:E.
  - intro H; injection H as <-.
    destruct (IH q eq_refl) as (body & post & -> & -> & Hpost).
    exists (String a body), post. repeat split. exact Hpost.
  - destruct (Ascii.eqb_spec a c) as [->|Hne]; [|discriminate].
    intro H; injection H as <-. exists "", s. repeat split. exact E.
Qed.

(** A match of the pattern starts with an opening brace. *)
Lemma re_search_braces_head (text command_str : string) :
  re_search_braces text = Some command_str ->
  exists rest : string, command_str = String "{" rest.
Proof.
  unfold re_search_braces.
  destruct (from_first "{" text) as [t|] eqn:Ef; [|discriminate].
  destruct (from_first_split _ _ _ Ef) as (pre & rest & _ & -> & _).
  destruct (upto_last "}" rest) as [p|]; [|discriminate].
  intro H; injection H as <-. eauto.
Qed.

(** X6. The command string taken from a reply is a contiguous part of it:
    it starts at the first opening brace of the reply, ends at its last
    closing brace, and the reply is what stands before, the command string,
    and what stands after. *)
Theorem extracted_span_is_first_to_last_brace :
  forall text command_str : string,
    re_search_braces text = Some command_str ->
    exists pre body post : string,
      text = pre ++ command_str ++ post
      /\ command_str = "{" ++ body ++ "}"
      /\ from_first "{" pre = None
      /\ upto_last "}" post = None.
Proof.
  intros text command_str. unfold re_search_braces.
  destruct (from_first "{" text) as [t|] eqn:Ef; [|discriminate].
  destruct (from_first_split _ _ _ Ef) as (pre & rest & -> & -> & Hpre).
  destruct (upto_last "}" rest) as [p|] eqn:El; [|discriminate].
  destruct (upto_last_split _ _ _ El) as (body & post & -> & -> & Hpost).
  intro H; injection H as <-.
  exists pre, body, post. repeat split; assumption.
Qed.

Lemma extracted_span_is_first_to_last_brace_witness :
  exists pre body post : string,
    sure_reply = pre ++ resource_object ++ post
    /\ resource_object = "{" ++ body ++ "}"
    /\ from_first "{" pre = None
    /\ upto_last "}" post = None.
Proof.
  apply (extracted_span_is_first_to_last_brace sure_reply resource_object).
  reflexivity.
Defined.

Lemma object_pairs_gives_dict (scan : string -> parse pyval) (fuel : nat) :
  forall (s : string) (pairs : list (string * pyval)) (v : pyval) (r : string),
    object_pairs scan fuel s pairs = Parsed v r -> exists d : pydict, v = PDict d.
Proof.
  induction fuel as [|fuel IH]; intros s pairs v r; [discriminate|].
  cbn [object_pairs].
  destruct (scanstring s) as [key r0| |]; try discriminate.
  destruct (skip_ws r0) as [|colon r1]; [discriminate|].
  destruct (Ascii.eqb colon ":"); [|discriminate].
  destruct (scan (skip_ws r1)) as [value r2| |]; try discriminate.
  cbv zeta.
  destruct (skip_ws r2) as [|c r3]; [discriminate|].
  destruct (Ascii.eqb c "}").
  { intro H; injection H as <- _. eauto. }
  destruct (Ascii.eqb c ","); [|discriminate].
  destruct (skip_ws r3) as [|q r4]; [discriminate|].
  destruct (Ascii.eqb q "034"); [|discriminate].
  apply IH.
Qed.

(** The text that starts with an opening brace loads as a dict or not at
    all. *)
Lemma json_loads_brace (rest : string) (v : pyval) :
  json_loads (String "{" rest) = Loaded v -> exists d : pydict, v = PDict d.
Proof.
  unfold json_loads.
  change (skip_ws (String "{" rest)) with (String "{" rest).
  set (fuel := String.length (String "{" rest)).
  change (scan_once (S fuel) (String "{" rest))
    with (scan_object (scan_once fuel) fuel rest).
  unfold scan_object.
  destruct (skip_ws rest) as [|c r]; [discriminate|].
  destruct (Ascii.eqb c "}").
  { destruct (skip_ws r); [|discriminate]. intro H; injection H as <-. eauto. }
  destruct (Ascii.eqb c "034"); [|discriminate].
  destruct (object_pairs (scan_once fuel) fuel r []) as [v' r'| |] eqn:E;
    try discriminate.
  destruct (skip_ws r'); [|discriminate].
  intro H; injection H as <-.
  exact (object_pairs_gives_dict _ _ _ _ _ _ E).
Qed.

(** X7. What is parsed from a reply is always a JSON object: when the
    command string taken from the reply loads, the value is a dict, so the
    lookups of the validation cannot fail on a list, a string or a
    number. *)
Theorem parsed_command_is_a_dict :
  forall (text command_str : string) (command_info : pyval),
    re_search_braces text = Some command_str ->
    json_loads command_str = Loaded command_info ->
    exists d : pydict,
      command_info = PDict d
      /\ validate command_info
         = if is_some (dict_get "cmd" d) && isinstance_dict (dict_get "params" d)
           then ([], Some d)
           else ([StError msg_missing_keys], None).
Proof.
  intros text command_str command_info Hre Hload.
  destruct (re_search_braces_head _ _ Hre) as [rest ->].
  destruct (json_loads_brace _ _ Hload) as [d ->].
  exists d. split; reflexivity.
Qed.

Lemma parsed_command_is_a_dict_witness :
  exists d : pydict,
    PDict [("cmd", PStr "/system/resource"); ("params", PDict [])] = PDict d
    /\ validate (PDict [("cmd", PStr "/system/resource"); ("params", PDict [])])
       = if is_some (dict_get "cmd" d) && isinstance_dict (dict_get "params" d)
         then ([], Some d)
         else ([StError msg_missing_keys], None).
Proof.
  apply (parsed_command_is_a_dict sure_reply resource_object).
  - reflexivity.
  - vm_compute. reflexivity.
Defined.

Lemma validate_none (v : pyval) :
  snd (validate v) = None -> well_shaped v = false.
Proof.
  destruct v as [| b | z | f | s | l | d]; try reflexivity. cbn.
  destruct (dict_get "cmd" d) as [c|]; [|reflexivity].
  destruct (dict_get "params" d) as [[]|]; cbn; try reflexivity.
  discriminate.
Qed.

(** X8. A translation that fails is never silent and one that succeeds
    shows nothing: with a descriptor the function has shown and logged
    nothing, and without one it has shown exactly one error message. *)
Theorem failure_shows_one_error :
  forall (ai : genai) (user_input api_key : string),
    match snd (get_ai_response ai user_input api_key) with
    | Some _ => fst (get_ai_response ai user_input api_key) = []
    | None =>
        exists message : string,
          st_errors (fst (get_ai_response ai user_input api_key)) = [message]
    end.
Proof.
  intros ai user_input api_key. unfold get_ai_response.
  destruct (String.eqb api_key ""); [cbn; eauto|].
  destruct (configure ai api_key); [cbn; eauto|].
  destruct (generate_content ai api_key (full_prompt user_input)) as [text|e];
    [|cbn; eauto].
  destruct (re_search_braces text) as [command_str|]; [|cbn; eauto].
  destruct (json_loads command_str) as [v| |]; try (cbn; eauto; fail).
  destruct v as [| b | z | f | s | l | d]; try (cbn; eauto; fail).
  - cbn. destruct (contains "cmd" s); cbn; eauto.
  - cbn. destruct (list_has_str "cmd" l); cbn; eauto.
  - cbn. destruct (is_some (dict_get "cmd" d) && isinstance_dict (dict_get "params" d));
      cbn; eauto.
Qed.



(** A returned descriptor is the dict parsed from the reply, and it has the
    shape. *)
Lemma get_ai_response_some (ai : genai) (user_input api_key : string) (d : pydict) :
  snd (get_ai_response ai user_input api_key) = Some d ->
  well_shaped (PDict d) = true.
Proof.
  unfold get_ai_response.
  destruct (String.eqb api_key ""); [discriminate|].
  destruct (configure ai api_key); [discriminate|].
  destruct (generate_content ai api_key (full_prompt user_input)) as [text|e];
    [|discriminate].
  destruct (re_search_braces text) as [command_str|]; [|discriminate].
  destruct (json_loads command_str) as [v| |]; try discriminate.
  intro H. apply validate_some in H. destruct H as [-> H]. exact H.
Qed.

End TranslatorMore.

(** ** Properties of the session *)

Module SessionProps.
Import PyStr Executor Translator Formatter Samples Session SessionSamples.

(** X10. [connect_to_mikrotik] reports success only when the pool was built
    and the login gave a connection, which it then stores with its pool;
    when either step raises it returns [False], shows one error in the
    sidebar and leaves the session as it was. *)
Theorem failed_connection_leaves_session_untouched :
  forall (lib : routeros) (h u p : string) (st : session_state),
    match connect_to_mikrotik lib h u p st with
    | (st', shown, true) =>
        exists (pool : api_pool) (api : router_api),
          RouterOsApiPool lib h u p = Return pool
          /\ get_api pool = Return api
          /\ api_connection st' = Some api
          /\ connection_pool st' = Some pool
          /\ messages st' = messages st
          /\ shown = []
    | (st', shown, false) =>
        st' = st /\ exists message : string, shown = [SidebarError message]
    end.
Proof.
  intros lib h u p st. unfold connect_to_mikrotik, connect_error.
  destruct (RouterOsApiPool lib h u p) as [pool|e].
  - destruct (get_api pool) as [api|e] eqn:Hapi.
    + exists pool, api. repeat split. exact Hapi.
    + split; [reflexivity|]. destruct (is_connection_error lib e); eauto.
  - split; [reflexivity|]. destruct (is_connection_error lib e); eauto.
Qed.

Lemma nonempty_false (s : string) : s = "" -> nonempty s = false.
Proof. intros ->. reflexivity. Qed.

Lemma nonempty_true (s : string) : s <> "" -> nonempty s = true.
Proof. intro H. unfold nonempty. apply String.eqb_neq in H. now rewrite H. Qed.

(** X11. The Connect button tries to connect only when host, user and API
    key are all filled in: with one of them empty it shows the warning and
    changes nothing.  The password is not asked for: with the three filled
    in the connection is tried with the password as it is, empty or not. *)
Theorem connect_needs_host_user_and_key :
  forall (lib : routeros) (st : session_state),
    (host st = "" \/ user st = "" \/ api_key st = "" ->
     on_connect lib st
     = (st, [Warning "Please provide all connection and API key details."]))
    /\ (host st <> "" -> user st <> "" -> api_key st <> "" ->
        on_connect lib st
        = fst (connect_to_mikrotik lib (host st) (user st) (password st) st)).
Proof.
  intros lib st. unfold on_connect. split.
  - intros [H|[H|H]]; rewrite (nonempty_false _ H);
      rewrite ?andb_false_r; reflexivity.
  - intros Hh Hu Hk.
    rewrite (nonempty_true _ Hh), (nonempty_true _ Hu), (nonempty_true _ Hk).
    cbn [andb].
    destruct (connect_to_mikrotik lib (host st) (user st) (password st) st)
      as [[st' shown] ok].
    reflexivity.
Qed.

Lemma connect_needs_host_user_and_key_witness :
  on_connect (lib_accepting (api_returning three_leases))
    (initial_state "" "admin" "secret" "key")
  = (initial_state "" "admin" "secret" "key",
     [Warning "Please provide all connection and API key details."])
  /\ on_connect (lib_accepting (api_returning three_leases)) fresh_session
     = fst (connect_to_mikrotik (lib_accepting (api_returning three_leases))
              (host fresh_session) (user fresh_session) (password fresh_session)
              fresh_session).
Proof.
  split.
  - apply (proj1 (connect_needs_host_user_and_key
                    (lib_accepting (api_returning three_leases))
                    (initial_state "" "admin" "secret" "key"))).
    left. reflexivity.
  - apply (proj2 (connect_needs_host_user_and_key
                    (lib_accepting (api_returning three_leases)) fresh_session));
      discriminate.
Defined.

(** X12. Without a connection, or without an API key, a chat input reaches
    neither the model nor the router: the session and its transcript stay
    as they were, no call is made on the router, and all that is shown is
    one notice. *)
Theorem chat_input_is_gated :
  forall (ai : genai) (prompt : string) (st : session_state),
    prompt <> "" ->
    api_connection st = None \/ api_key st = "" ->
    final (chat_turn ai prompt st) = st
    /\ router_calls (chat_turn ai prompt st) = []
    /\ uncaught (chat_turn ai prompt st) = None
    /\ exists notice : string, shown (chat_turn ai prompt st) = [Info notice].
Proof.
  intros ai prompt st Hp H. unfold chat_turn.
  apply String.eqb_neq in Hp. rewrite Hp.
  destruct (api_connection st) as [api|].
  - destruct H as [H|H]; [discriminate|]. rewrite H. cbn. eauto 6.
  - cbn. eauto 6.
Qed.

Lemma chat_input_is_gated_witness :
  final (chat_turn (ai_replying sure_reply) "uptime?" fresh_session) = fresh_session
  /\ router_calls (chat_turn (ai_replying sure_reply) "uptime?" fresh_session) = []
  /\ uncaught (chat_turn (ai_replying sure_reply) "uptime?" fresh_session) = None
  /\ exists notice : string,
       shown (chat_turn (ai_replying sure_reply) "uptime?" fresh_session)
       = [Info notice].
Proof.
  apply (chat_input_is_gated (ai_replying sure_reply) "uptime?" fresh_session).
  - discriminate.
  - left. reflexivity.
Defined.

(** A turn that passes the two gates, in one equation. *)
Lemma chat_turn_runs (ai : genai) (prompt : string) (st : session_state)
  (api : router_api) :
  prompt <> "" ->
  api_connection st = Some api ->
  api_key st <> "" ->
  chat_turn ai prompt st
  = let st1 := append_message {| role := "user"; content := prompt |} st in
    let (events, command_info) := get_ai_response ai prompt (api_key st) in
    let before := (ChatMarkdown "user" prompt :: map FromTranslator events)%list in
    match execute_command api command_info with
    | (calls, Raise e) =>
        {| final := st1; shown := before; router_calls := calls;
           uncaught := Some e |}
    | (calls, Return response) =>
        {| final :=
             append_message
               {| role := "assistant";
                  content := format_response response command_info |} st1;
           shown := (before
                       ++ [ChatMarkdown "assistant"
                             (format_response response command_info)])%list;
           router_calls := calls; uncaught := None |}
    end.
Proof.
  intros Hp Hapi Hk. unfold chat_turn.
  apply String.eqb_neq in Hp, Hk. rewrite Hp, Hapi, Hk. reflexivity.
Qed.

(** [execute_command] returns on whatever [get_ai_response] returns. *)
Lemma pipeline_returns (ai : genai) (api : router_api) (prompt key : string) :
  exists (calls : list call) (response : response),
    execute_command api (snd (get_ai_response ai prompt key))
    = (calls, Return response).
Proof.
  destruct (snd (get_ai_response ai prompt key)) as [d|] eqn:E.
  - apply TranslatorMore.get_ai_response_some in E.
    unfold well_shaped in E.
    destruct (dict_get "cmd" d) as [v|] eqn:Hcmd; [|discriminate].
    exact (ExecutorMore.execute_command_returns_with_cmd api d v Hcmd).
  - exists [], (RStr no_command). reflexivity.
Qed.

(** X13. A chat turn that passes the gates never ends in an exception: the
    descriptor the translator returns always has [cmd], so the lookup that
    stands outside the [try] of [execute_command] cannot fail.  The turn
    adds two entries to the transcript, the user's input and the formatted
    result of the execution, and leaves the connection as it was. *)
Theorem chat_turn_never_crashes :
  forall (ai : genai) (prompt : string) (st : session_state) (api : router_api),
    prompt <> "" ->
    api_connection st = Some api ->
    api_key st <> "" ->
    exists response : response,
      execute_command api (snd (get_ai_response ai prompt (api_key st)))
      = (router_calls (chat_turn ai prompt st), Return response)
      /\ uncaught (chat_turn ai prompt st) = None
      /\ messages (final (chat_turn ai prompt st))
         = (messages st
              ++ [ {| role := "user"; content := prompt |};
                   {| role := "assistant";
                      content :=
                        format_response response
                          (snd (get_ai_response ai prompt (api_key st))) |} ])%list
      /\ api_connection (final (chat_turn ai prompt st)) = Some api
      /\ connection_pool (final (chat_turn ai prompt st)) = connection_pool st.
Proof.
  intros ai prompt st api Hp Hapi Hk.
  rewrite (chat_turn_runs ai prompt st api Hp Hapi Hk).
  destruct (pipeline_returns ai api prompt (api_key st)) as (calls & response & E).
  destruct (get_ai_response ai prompt (api_key st)) as [events command_info].
  cbn [snd] in *. cbv zeta. rewrite E.
  exists response. cbn. repeat split; try assumption.
  now rewrite <- app_assoc.
Qed.

Lemma chat_turn_never_crashes_witness :
  exists response : response,
    execute_command (api_returning three_leases)
      (snd (get_ai_response (ai_replying lease_object) "who is online?"
              (api_key connected_session)))
    = (router_calls (chat_turn (ai_replying lease_object) "who is online?"
                       connected_session),
       Return response)
    /\ uncaught (chat_turn (ai_replying lease_object) "who is online?"
                   connected_session) = None
    /\ messages (final (chat_turn (ai_replying lease_object) "who is online?"
                          connected_session))
       = (messages connected_session
            ++ [ {| role := "user"; content := "who is online?" |};
                 {| role := "assistant";
                    content :=
                      format_response response
                        (snd (get_ai_response (ai_replying lease_object)
                                "who is online?" (api_key connected_session))) |} ])%list
    /\ api_connection (final (chat_turn (ai_replying lease_object) "who is online?"
                                connected_session))
       = Some (api_returning three_leases)
    /\ connection_pool (final (chat_turn (ai_replying lease_object)
                                 "who is online?" connected_session))
       = connection_pool connected_session.
Proof.
  apply (chat_turn_never_crashes (ai_replying lease_object) "who is online?"
           connected_session (api_returning three_leases)).
  - discriminate.
  - reflexivity.
  - discriminate.
Defined.

(** X14. When the translation fails, the turn makes no call on the router
    and the answer put in the transcript is the advisory that no command
    could be determined. *)
Theorem failed_translation_answers_with_advisory :
  forall (ai : genai) (prompt : string) (st : session_state) (api : router_api),
    prompt <> "" ->
    api_connection st = Some api ->
    api_key st <> "" ->
    snd (get_ai_response ai prompt (api_key st)) = None ->
    router_calls (chat_turn ai prompt st) = []
    /\ messages (final (chat_turn ai prompt st))
       = (messages st
            ++ [ {| role := "user"; content := prompt |};
                 {| role := "assistant";
                    content := "The AI could not determine a valid command for your request. Please try rephrasing it." |} ])%list.
Proof.
  intros ai prompt st api Hp Hapi Hk Hnone.
  rewrite (chat_turn_runs ai prompt st api Hp Hapi Hk).
  destruct (get_ai_response ai prompt (api_key st)) as [events command_info].
  cbn [snd] in Hnone. subst command_info. cbn.
  split; [reflexivity|]. now rewrite <- app_assoc.
Qed.

Lemma failed_translation_answers_with_advisory_witness :
  router_calls (chat_turn (ai_replying "I cannot help with that.") "sing a song"
                  connected_session) = []
  /\ messages (final (chat_turn (ai_replying "I cannot help with that.")
                        "sing a song" connected_session))
     = (messages connected_session
          ++ [ {| role := "user"; content := "sing a song" |};
               {| role := "assistant";
                  content := "The AI could not determine a valid command for your request. Please try rephrasing it." |} ])%list.
Proof.
  apply (failed_translation_answers_with_advisory
           (ai_replying "I cannot help with that.") "sing a song"
           connected_session (api_returning three_leases)).
  - discriminate.
  - reflexivity.
  - discriminate.
  - vm_compute. reflexivity.
Defined.

(** X15. A reboot asked for in the chat never reaches the router: when the
    translator returns a descriptor whose [cmd] is the reboot path, the turn
    makes no call on the connection and answers with the advisory that
    points to the sidebar control. *)
Theorem reboot_request_makes_no_router_call :
  forall (ai : genai) (prompt : string) (st : session_state) (api : router_api)
         (d : pydict),
    prompt <> "" ->
    api_connection st = Some api ->
    api_key st <> "" ->
    snd (get_ai_response ai prompt (api_key st)) = Some d ->
    dict_get "cmd" d = Some (PStr "/system/reboot") ->
    router_calls (chat_turn ai prompt st) = []
    /\ messages (final (chat_turn ai prompt st))
       = (messages st
            ++ [ {| role := "user"; content := prompt |};
                 {| role := "assistant";
                    content := "Reboot command received. Please use the 'System Controls' section in the sidebar to confirm the reboot." |} ])%list.
Proof.
  intros ai prompt st api d Hp Hapi Hk Hsome Hcmd.
  rewrite (chat_turn_runs ai prompt st api Hp Hapi Hk).
  destruct (get_ai_response ai prompt (api_key st)) as [events command_info].
  cbn [snd] in Hsome. subst command_info. cbv zeta.
  assert (E : execute_command api (Some d) = ([], Return (RStr reboot_advisory))).
  { unfold execute_command.
    rewrite (ExecutorProps.get_some_not_falsy d _ Hcmd), Hcmd. reflexivity. }
  rewrite E. cbn. split; [reflexivity|]. now rewrite <- app_assoc.
Qed.

Lemma reboot_request_makes_no_router_call_witness :
  router_calls (chat_turn (ai_replying reboot_object) "restart the router"
                  connected_session) = []
  /\ messages (final (chat_turn (ai_replying reboot_object) "restart the router"
                        connected_session))
     = (messages connected_session
          ++ [ {| role := "user"; content := "restart the router" |};
               {| role := "assistant";
                  content := "Reboot command received. Please use the 'System Controls' section in the sidebar to confirm the reboot." |} ])%list.
Proof.
  apply (reboot_request_makes_no_router_call (ai_replying reboot_object)
           "restart the router" connected_session (api_returning three_leases)
           [("cmd", PStr "/system/reboot"); ("params", PDict [])]).
  - discriminate.
  - reflexivity.
  - discriminate.
  - vm_compute. reflexivity.
  - reflexivity.
Defined.

Lemma connect_keeps_messages (lib : routeros) (h u p : string) (st : session_state) :
  messages (fst (fst (connect_to_mikrotik lib h u p st))) = messages st.
Proof.
  unfold connect_to_mikrotik.
  destruct (RouterOsApiPool lib h u p) as [pool|e]; [|reflexivity].
  destruct (get_api pool); reflexivity.
Qed.

Lemma on_connect_keeps_messages (lib : routeros) (st : session_state) :
  messages (fst (on_connect lib st)) = messages st.
Proof.
  unfold on_connect.
  destruct (nonempty (host st) && nonempty (user st) && nonempty (api_key st));
    [|reflexivity].
  pose proof (connect_keeps_messages lib (host st) (user st) (password st) st) as H.
  destruct (connect_to_mikrotik lib (host st) (user st) (password st) st)
    as [[st' shown] ok].
  exact H.
Qed.

Lemma on_disconnect_keeps_messages (st : session_state) :
  messages (fst (on_disconnect st)) = messages st.
Proof.
  unfold on_disconnect.
  destruct (connection_pool st) as [pool|]; [|reflexivity].
  destruct (disconnect pool); reflexivity.
Qed.

Lemma chat_turn_extends_messages (ai : genai) (prompt : string) (st : session_state) :
  exists added : list chat_message,
    messages (final (chat_turn ai prompt st)) = (messages st ++ added)%list.
Proof.
  unfold chat_turn.
  destruct (String.eqb prompt ""); [exists []; cbn; now rewrite app_nil_r|].
  destruct (api_connection st) as [api|]; [|exists []; cbn; now rewrite app_nil_r].
  destruct (String.eqb (api_key st) ""); [exists []; cbn; now rewrite app_nil_r|].
  destruct (get_ai_response ai prompt (api_key st)) as [events command_info].
  cbv zeta.
  destruct (execute_command api command_info) as [calls [response|e]]; cbn.
  - eexists. rewrite <- app_assoc. reflexivity.
  - eexists. reflexivity.
Qed.

Lemma step_extends_messages (lib : routeros) (st : session_state) (a : action) :
  exists added : list chat_message,
    messages (step lib st a) = (messages st ++ added)%list.
Proof.
  unfold step.
  destruct a as [| |ai prompt].
  - destruct (api_connection st); exists [];
      rewrite ?on_connect_keeps_messages; now rewrite app_nil_r.
  - destruct (api_connection st); exists [];
      rewrite ?on_disconnect_keeps_messages; now rewrite app_nil_r.
  - destruct (api_connection st); apply chat_turn_extends_messages.
Qed.

(** X16. The transcript is append-only: after any sequence of Connect
    clicks, Disconnect clicks and chat inputs, with any library, model and
    router behind them, the transcript is the one before with entries added
    at its end; nothing is ever changed or removed. *)
Theorem transcript_is_append_only :
  forall (lib : routeros) (actions : list action) (st : session_state),
    exists added : list chat_message,
      messages (run lib st actions) = (messages st ++ added)%list.
Proof.
  intros lib actions. unfold run.
  induction actions as [|a actions IH]; intro st; cbn [fold_left].
  - exists []. now rewrite app_nil_r.
  - destruct (IH (step lib st a)) as [added2 H2].
    destruct (step_extends_messages lib st a) as [added1 H1].
    exists (added1 ++ added2)%list. now rewrite H2, H1, app_assoc.
Qed.

Lemma step_keeps_keys_agree (lib : routeros) (st : session_state) (a : action) :
  keys_agree st -> keys_agree (step lib st a).
Proof.
  intro H. unfold step. destruct a as [| |ai prompt].
  - destruct (api_connection st) eqn:Hapi; [exact H|].
    unfold on_connect.
    destruct (nonempty (host st) && nonempty (user st) && nonempty (api_key st));
      [|exact H].
    unfold connect_to_mikrotik.
    destruct (RouterOsApiPool lib (host st) (user st) (password st)) as [pool|e];
      [|exact H].
    destruct (get_api pool) as [api|e]; [|exact H].
    right. exists api, pool. split; reflexivity.
  - destruct (api_connection st) eqn:Hapi; [|exact H].
    unfold on_disconnect.
    destruct (connection_pool st) as [pool|]; [|exact H].
    destruct (disconnect pool); [exact H|].
    left. split; reflexivity.
  - assert (E : api_connection (final (chat_turn ai prompt st)) = api_connection st
                /\ connection_pool (final (chat_turn ai prompt st))
                   = connection_pool st).
    { unfold chat_turn.
      destruct (String.eqb prompt ""); [split; reflexivity|].
      destruct (api_connection st) as [api|] eqn:Hapi;
        [|cbn; rewrite Hapi; split; reflexivity].
      destruct (String.eqb (api_key st) "");
        [cbn; rewrite Hapi; split; reflexivity|].
      destruct (get_ai_response ai prompt (api_key st)) as [events command_info].
      cbv zeta.
      destruct (execute_command api command_info) as [calls [response|e]];
        cbn; rewrite Hapi; split; reflexivity. }
    destruct E as [E1 E2].
    assert (G : keys_agree (final (chat_turn ai prompt st)))
      by (unfold keys_agree in *; rewrite E1, E2; exact H).
    destruct (api_connection st); exact G.
Qed.

(** X17. From the first run of the script on, the connection handle and its
    pool are stored and cleared together: after any sequence of actions the
    session holds both or neither.  So whenever the Disconnect button is on
    the page there is a pool to disconnect, and a click on it fails only if
    the pool's own [disconnect()] raises. *)
Theorem connection_and_pool_go_together :
  forall (lib : routeros) (h u p k : string) (actions : list action),
    let st := run lib (initial_state h u p k) actions in
    keys_agree st
    /\ (api_connection st <> None ->
        exists pool : api_pool,
          connection_pool st = Some pool
          /\ snd (on_disconnect st) = disconnect pool).
Proof.
  intros lib h u p k actions. cbv zeta.
  assert (H : keys_agree (run lib (initial_state h u p k) actions)).
  { unfold run.
    assert (G : forall st, keys_agree st -> keys_agree (fold_left (step lib) actions st)).
    { induction actions as [|a actions IH]; intros st Hst; cbn [fold_left].
      - exact Hst.
      - apply IH, step_keeps_keys_agree, Hst. }
    apply G. left. split; reflexivity. }
  split; [exact H|].
  intro Hne. destruct H as [[Hn _]|(api & pool & _ & Hpool)]; [contradiction|].
  exists pool. split; [exact Hpool|].
  unfold on_disconnect. rewrite Hpool. destruct (disconnect pool); reflexivity.
Qed.

Lemma connection_and_pool_go_together_witness :
  exists pool : api_pool,
    connection_pool
      (run (lib_accepting (api_returning three_leases))
         (initial_state "192.168.88.1" "admin" "" "key") [ClickConnect])
    = Some pool
    /\ snd (on_disconnect
              (run (lib_accepting (api_returning three_leases))
                 (initial_state "192.168.88.1" "admin" "" "key") [ClickConnect]))
       = disconnect pool.
Proof.
  apply (proj2 (connection_and_pool_go_together
                  (lib_accepting (api_returning three_leases))
                  "192.168.88.1" "admin" "" "key" [ClickConnect])).
  vm_compute. discriminate.
Defined.

(** X18. A failure of the router during a turn ends up in the transcript,
    not in a crash: when the query of the translated command raises, the
    answer of the turn is the error string with the failure's description,
    after the one query that was tried. *)
Theorem router_failure_is_shown_in_transcript :
  forall (ai : genai) (prompt : string) (st : session_state) (api : router_api)
         (d kwargs : pydict) (v : pyval) (res : resource) (e : exn),
    prompt <> "" ->
    api_connection st = Some api ->
    api_key st <> "" ->
    snd (get_ai_response ai prompt (api_key st)) = Some d ->
    dict_get "cmd" d = Some v ->
    pyval_eq_str v "/system/reboot" = false ->
    dict_get "params" d = Some (PDict kwargs) ->
    get_resource api v = Return res ->
    resource_get res kwargs = Raise e ->
    router_calls (chat_turn ai prompt st) = [CallGetResource v; CallGet v kwargs]
    /\ uncaught (chat_turn ai prompt st) = None
    /\ messages (final (chat_turn ai prompt st))
       = (messages st
            ++ [ {| role := "user"; content := prompt |};
                 {| role := "assistant";
                    content := "An error occurred while executing the command: "
                                 ++ exn_str e |} ])%list.
Proof.
  intros ai prompt st api d kwargs v res e Hp Hapi Hk Hsome Hcmd Hr Hparams Hres He.
  rewrite (chat_turn_runs ai prompt st api Hp Hapi Hk).
  destruct (get_ai_response ai prompt (api_key st)) as [events command_info].
  cbn [snd] in Hsome. subst command_info. cbv zeta.
  rewrite (ExecutorProps.execute_command_query api d v Hcmd Hr).
  unfold dict_get_default. rewrite Hparams, Hres. cbn. rewrite He. cbn.
  repeat split. now rewrite <- app_assoc.
Qed.

Lemma router_failure_is_shown_in_transcript_witness :
  router_calls (chat_turn (ai_replying lease_object) "who is online?" failing_session)
  = [CallGetResource (PStr "/ip/dhcp-server/lease");
     CallGet (PStr "/ip/dhcp-server/lease") []]
  /\ uncaught (chat_turn (ai_replying lease_object) "who is online?" failing_session)
     = None
  /\ messages (final (chat_turn (ai_replying lease_object) "who is online?"
                        failing_session))
     = (messages failing_session
          ++ [ {| role := "user"; content := "who is online?" |};
               {| role := "assistant";
                  content := "An error occurred while executing the command: "
                               ++ exn_str login_refused |} ])%list.
Proof.
  apply (router_failure_is_shown_in_transcript (ai_replying lease_object)
           "who is online?" failing_session (api_failing login_refused)
           lease_descriptor [] (PStr "/ip/dhcp-server/lease")
           {| resource_get := fun _ => Raise login_refused |} login_refused).
  - discriminate.
  - reflexivity.
  - discriminate.
  - vm_compute. reflexivity.
  - reflexivity.
  - reflexivity.
  - reflexivity.
  - reflexivity.
  - reflexivity.
Defined.

(** X19. The whole pipeline on a lease request: when the translator returns
    a descriptor with the DHCP-lease path and the router answers its one
    query with a non-empty list of records, the answer put in the transcript
    is the header with the number of bound leases followed by the blocks of
    all the records in the router's order. *)
Theorem lease_turn_reports_bound_count :
  forall (ai : genai) (prompt : string) (st : session_state) (api : router_api)
         (d kwargs : pydict) (res : resource) (items : list record),
    prompt <> "" ->
    api_connection st = Some api ->
    api_key st <> "" ->
    snd (get_ai_response ai prompt (api_key st)) = Some d ->
    dict_get "cmd" d = Some (PStr "/ip/dhcp-server/lease") ->
    dict_get "params" d = Some (PDict kwargs) ->
    get_resource api (PStr "/ip/dhcp-server/lease") = Return res ->
    resource_get res kwargs = Return items ->
    items <> [] ->
    queries (router_calls (chat_turn ai prompt st))
    = [(PStr "/ip/dhcp-server/lease", kwargs)]
    /\ messages (final (chat_turn ai prompt st))
       = (messages st
            ++ [ {| role := "user"; content := prompt |};
                 {| role := "assistant";
                    content := count_header (bound_count items) ++ listing items |} ])%list.
Proof.
  intros ai prompt st api d kwargs res items Hp Hapi Hk Hsome Hcmd Hparams Hres
    Hget Hne.
  rewrite (chat_turn_runs ai prompt st api Hp Hapi Hk).
  destruct (get_ai_response ai prompt (api_key st)) as [events command_info].
  cbn [snd] in Hsome. subst command_info. cbv zeta.
  assert (E : execute_command api (Some d)
              = ([CallGetResource (PStr "/ip/dhcp-server/lease");
                  CallGet (PStr "/ip/dhcp-server/lease") kwargs],
                 Return (RList items))).
  { rewrite (ExecutorProps.execute_command_query api d _ Hcmd eq_refl).
    unfold dict_get_default. rewrite Hparams, Hres. cbn. rewrite Hget.
    reflexivity. }
  rewrite E. cbv beta iota.
  cbn [router_calls final messages append_message].
  rewrite (FormatterMore.format_response_list items (Some d) Hne).
  rewrite (FormatterProps.has_path_nonempty d lease_path Hcmd).
  split; [reflexivity|]. now rewrite <- app_assoc.
Qed.

Lemma lease_turn_reports_bound_count_witness :
  queries (router_calls (chat_turn (ai_replying lease_object) "who is online?"
                           connected_session))
  = [(PStr "/ip/dhcp-server/lease", [])]
  /\ messages (final (chat_turn (ai_replying lease_object) "who is online?"
                        connected_session))
     = (messages connected_session
          ++ [ {| role := "user"; content := "who is online?" |};
               {| role := "assistant";
                  content := count_header (bound_count three_leases)
                               ++ listing three_leases |} ])%list.
Proof.
  apply (lease_turn_reports_bound_count (ai_replying lease_object)
           "who is online?" connected_session (api_returning three_leases)
           lease_descriptor [] {| resource_get := fun _ => Return three_leases |}
           three_leases).
  - discriminate.
  - reflexivity.
  - discriminate.
  - vm_compute. reflexivity.
  - reflexivity.
  - reflexivity.
  - reflexivity.
  - reflexivity.
  - discriminate.
Defined.

End SessionProps.
